(** * refman: a shallow embedding of the command-line glue

    The repository is one Go program, [main.go], kept here in two revisions:
    - [src/main.go]: PDF text through [ledongthuc/pdf], an unconditional
      logger on a buffered standard error, the query passed as typed;
    - [src/unnamed/part_000] ([go.mod] followed by [main.go]): PDF text page
      by page through [pdfcpu], the flags [-v] and [-vv], and [~] rewritten
      to [-] in the query.
    Both are embedded, each in a module of its own ([MainGo], [Part000]),
    over one model of the libraries they call (bleve, pdfcpu, pdf, bibtex,
    os, filepath). The libraries are not part of the repository: their
    answers are either read from an environment record [Env] (file contents,
    path resolution, query matching) or, for the bleve store, computed on a
    finite map from document identifiers to documents. *)

From Stdlib Require Import Ascii String ZArith.
From stdpp Require Import gmap strings list fin_maps.

Local Open Scope string_scope.
Local Open Scope list_scope.

(** ** Go values *)

(** Go's [error] values. The four bleve errors are the ones [bleve.Open] and
    [bleve.New] are documented to return; the others carry their message. *)
Inductive error : Type :=
  | ErrorIndexPathDoesNotExist
  | ErrorIndexPathExists
  | ErrorIndexMetaMissing
  | ErrorIndexMetaCorrupt
  | ErrorIndexClosed
  | ErrExist
  | ErrOther (msg : string).

(** A Go result pair [(v, err)]: [Ok v] is [(v, nil)], [Err e] is [(_, e)]. *)
Inductive result (A : Type) : Type :=
  | Ok (v : A)
  | Err (e : error).
Arguments Ok {A} v.
Arguments Err {A} e.

Definition is_Ok {A} (r : result A) : bool :=
  match r with Ok _ => true | Err _ => false end.

(** How a Go function that may panic ends. *)
Inductive exit : Type :=
  | Returned
  | Panicked (e : error).

(** ** Library data *)

(** [bibtex.BibTex], reduced to its entries. *)
Record BibEntry : Type := mkBibEntry {
  Type_ : string;
  CiteName : string;
  Fields : list (string * string)
}.

Definition BibTex : Type := list BibEntry.

(** [type Document struct { Ref *bibtex.BibTex; Txt string }]; a nil [Ref]
    is [None]. *)
Record Document : Type := mkDocument {
  Ref : option BibTex;
  Txt : string
}.

(** An [io.Reader] read to its end by [io.Copy]: the bytes it yields, or the
    error that interrupts the copy. *)
Definition Reader : Type := result string.

(** [pdfcpu.Context] as [parseDocument] uses it: the outcome of
    [EnsurePageCount], the field [PageCount] once ensured (a Go [int]; the
    model takes it below the largest [int], so that the loop counter never
    wraps), and [ExtractPageContent], whose reader may be nil. *)
Record Context : Type := mkContext {
  EnsurePageCount : option error;
  PageCount : Z;
  ExtractPageContent : Z -> result (option Reader)
}.

(** [pdf.Reader] of [ledongthuc/pdf]: only [GetPlainText] is called. *)
Record pdf_Reader : Type := mkPdfReader {
  GetPlainText : result Reader
}.

(** [bleve.SearchRequest]: the query string behind [NewQueryStringQuery] and
    the highlight style, [None] when [Highlight] is left nil. *)
Record SearchRequest : Type := mkSearchRequest {
  Query : string;
  Highlight : option string
}.

Record DocumentMatch : Type := mkDocumentMatch {
  ID : string;
  Fragments : option (list string)
}.

Record SearchResult : Type := mkSearchResult {
  Request : SearchRequest;
  Hits : list DocumentMatch
}.

(** [ansi.Name], the name of the highlighter of package
    [highlight/highlighter/ansi]. *)
Definition ansi_Name : string := "ansi".

(** ** The world outside the process *)

(** What lies at a path where an index is looked for: a store bleve can
    open, with its documents by identifier, or something [bleve.Open]
    rejects with the given error (corruption, I/O failure, a mapping it
    cannot read). A path with nothing at it is absent from the map. *)
Inductive Store : Type :=
  | Healthy (docs : gmap string Document)
  | Unreadable (e : error).

(** An open [bleve.Index]: the path it was opened at. *)
Record Index : Type := mkIndex { idx_path : string }.

(** The calls made into the store, in order. *)
Inductive Call : Type :=
  | CallOpen (path : string)
  | CallNew (path : string)
  | CallIndex (path id : string) (doc : Document)
  | CallSearch (path : string) (req : SearchRequest)
  | CallClose (path : string).

(** The state a run acts on: the disk, what has reached the two standard
    streams, what [src/main.go]'s [bufio.Writer] over standard error still
    holds, and the trace of store calls. A log line is kept as its message,
    without the logger's prefix and time stamp; a printed search result is
    kept as the value handed to [fmt.Println]. *)
Record World : Type := mkWorld {
  disk : gmap string Store;
  os_Stdout : list SearchResult;
  os_Stderr : list string;
  stderr : list string;
  calls : list Call
}.

(** What one invocation reads and cannot change. *)
Record Env : Type := mkEnv {
  os_Getenv : string -> string;
  runtime_GOOS : string;
  os_UserHomeDir : result string;
  os_MkdirAll : string -> option error;
  filepath_Join : string -> string -> string;
  filepath_Abs : string -> result string;
  pdfcpuapi_ReadContextFile : string -> result Context;
  pdf_Open : string -> result pdf_Reader;
  os_Open : string -> result string;
  bibtex_Parse : string -> result BibTex;
  (** bleve's query-string syntax: a query that parses decides which
      documents match and which fragments a highlighter shows. *)
  bleve_matches : string -> result (Document -> bool);
  bleve_fragments : string -> Document -> list string
}.

(** The command line after [flag.Parse]: a flag that is not given keeps its
    default ([false], the empty string); [Args] are the positional
    arguments. [src/main.go] declares neither [-v] nor [-vv]. *)
Record CmdLine : Type := mkCmdLine {
  flag_v : bool;
  flag_vv : bool;
  flag_pdf : string;
  flag_bibtex : string;
  flag_Args : list string
}.

(** ** The state monad of a run *)

Definition M (A : Type) : Type := World -> A * World.

Definition ret {A} (a : A) : M A := fun w => (a, w).

Definition bind {A B} (c : M A) (k : A -> M B) : M B :=
  fun w => let (a, w') := c w in k a w'.

Declare Scope go_scope.
Delimit Scope go_scope with go.

Notation "'let*' x := c 'in' k" := (bind c (fun x => k))
  (at level 10, x name, c at level 100, k at level 200) : go_scope.
Notation "c ;; k" := (bind c (fun _ => k))
  (at level 100, k at level 200, right associativity) : go_scope.

(** [v, err := c; if err != nil { return nil, err }; k v] *)
Definition try {A B} (c : M (result A)) (k : A -> M (result B)) : M (result B) :=
  bind c (fun r => match r with Ok v => k v | Err e => ret (Err e) end).

Notation "'let?' x := c 'in' k" := (try c (fun x => k))
  (at level 10, x name, c at level 100, k at level 200) : go_scope.

(** A library call that touches nothing of the world. *)
Definition pure {A} (r : A) : M A := ret r.

(** ** Writers and the logger *)

(** Where a [log.Logger] writes: [os.Stderr], [ioutil.Discard], or the
    [bufio.Writer] that [src/main.go] keeps in its variable [stderr]. *)
Inductive Writer : Type :=
  | W_Stderr
  | W_Discard
  | W_Buffered.

Definition put_os_Stderr (msg : string) : M unit := fun w =>
  (tt, mkWorld (disk w) (os_Stdout w) (os_Stderr w ++ [msg]) (stderr w) (calls w)).

Definition put_stderr (msg : string) : M unit := fun w =>
  (tt, mkWorld (disk w) (os_Stdout w) (os_Stderr w) (stderr w ++ [msg]) (calls w)).

(** [logger.Printf] and [logger.Println]. *)
Definition logger_Print (logger : Writer) (msg : string) : M unit :=
  match logger with
  | W_Stderr => put_os_Stderr msg
  | W_Discard => ret tt
  | W_Buffered => put_stderr msg
  end.

(** [stderr = bufio.NewWriter(os.Stderr)]: a new, empty buffer. *)
Definition bufio_NewWriter : M unit := fun w =>
  (tt, mkWorld (disk w) (os_Stdout w) (os_Stderr w) [] (calls w)).

(** [stderr.Flush()]: the buffer goes to standard error and is emptied. The
    writer also flushes by itself when its 4096 bytes fill up, which changes
    when a line reaches standard error, not whether. *)
Definition stderr_Flush : M unit := fun w =>
  (tt, mkWorld (disk w) (os_Stdout w) (os_Stderr w ++ stderr w) [] (calls w)).

(** [fmt.Println(result)] *)
Definition fmt_Println (r : SearchResult) : M unit := fun w =>
  (tt, mkWorld (disk w) (os_Stdout w ++ [r]) (os_Stderr w) (stderr w) (calls w)).

(** ** Strings *)

(** [strings.Join(elems, sep)] *)
Definition strings_Join (elems : list string) (sep : string) : string :=
  String.concat sep elems.

(** [strings.ReplaceAll(s, old, new)] for a non-empty [old]: the
    non-overlapping occurrences of [old] are replaced from left to right.
    [skip] counts the bytes of an occurrence still to be dropped. (For an
    empty [old] Go inserts [new] around every rune; the program never asks
    for that and the model returns [s].) *)
Fixpoint replace_from (skip : nat) (old new s : string) : string :=
  match s with
  | EmptyString => EmptyString
  | String c s' =>
      match skip with
      | S k => replace_from k old new s'
      | O =>
          if String.prefix old s
          then new +:+ replace_from (String.length old - 1) old new s'
          else String c (replace_from 0 old new s')
      end
  end.

Definition strings_ReplaceAll (s old new : string) : string :=
  match old with
  | EmptyString => s
  | _ => replace_from 0 old new s
  end.

(** [io.Copy(&txt, r)] into a [strings.Builder] holding [txt]: the builder
    afterwards, or the reader's error. *)
Definition io_Copy (txt : string) (r : Reader) : result string :=
  match r with
  | Ok bytes => Ok (txt +:+ bytes)
  | Err e => Err e
  end.

(** [s != ""] *)
Definition nonempty (s : string) : bool := negb (String.eqb s "").

(** [errors.Is(err, os.ErrExist)] *)
Definition errors_Is_ErrExist (err : error) : bool :=
  match err with ErrExist => true | _ => false end.

(** [defer d] placed before [body]: [d] runs when [body] returns and when it
    panics, and the way [body] ended is the way the function ends. *)
Definition defer {A} (d : M unit) (body : M A) : M A :=
  (let* x := body in d ;; ret x)%go.

(** ** bleve, on a finite map *)

Module Bleve.

(** [bleve.NewIndexMapping()]: the default mapping, the only one used. *)
Inductive IndexMapping : Type := DefaultMapping.

Definition NewIndexMapping : IndexMapping := DefaultMapping.

Definition record (c : Call) : M unit := fun w =>
  (tt, mkWorld (disk w) (os_Stdout w) (os_Stderr w) (stderr w) (calls w ++ [c])).

Definition set_store (path : string) (st : Store) : M unit := fun w =>
  (tt, mkWorld (<[path := st]> (disk w)) (os_Stdout w) (os_Stderr w) (stderr w)
               (calls w)).

Definition get_store (path : string) : M (option Store) := fun w =>
  (disk w !! path, w).

(** [bleve.Open(path)]: an absent path is [ErrorIndexPathDoesNotExist],
    an unreadable one fails with its own error. *)
Definition Open (path : string) : M (result Index) :=
  (record (CallOpen path) ;;
   let* st := get_store path in
   match st with
   | Some (Healthy _) => ret (Ok (mkIndex path))
   | Some (Unreadable e) => ret (Err e)
   | None => ret (Err ErrorIndexPathDoesNotExist)
   end)%go.

(** [bleve.New(path, mapping)]: creates an empty store where there is
    nothing, and refuses with [ErrorIndexPathExists] where there is
    something, readable or not. *)
Definition New (path : string) (mapping : IndexMapping) : M (result Index) :=
  (record (CallNew path) ;;
   let* st := get_store path in
   match st with
   | None => set_store path (Healthy ∅) ;; ret (Ok (mkIndex path))
   | Some _ => ret (Err ErrorIndexPathExists)
   end)%go.

(** [index.Index(id, data)]: the document is stored under [id], in place
    of whatever was stored under it. *)
Definition Index_ (index : Index) (id : string) (data : Document)
  : M (result unit) :=
  (record (CallIndex (idx_path index) id data) ;;
   let* st := get_store (idx_path index) in
   match st with
   | Some (Healthy docs) =>
       set_store (idx_path index) (Healthy (<[id := data]> docs)) ;;
       ret (Ok tt)
   | _ => ret (Err ErrorIndexClosed)
   end)%go.

(** One hit per matching document; fragments only for a request that
    carries a highlight. Scores, and the order they induce, are left to
    the library: the hits come in the order of the map. *)
Definition hits (E : Env) (req : SearchRequest) (matches : Document -> bool)
    (docs : gmap string Document) : list DocumentMatch :=
  List.map
    (fun kv : string * Document =>
       mkDocumentMatch (fst kv)
         (match Highlight req with
          | Some _ => Some (bleve_fragments E (Query req) (snd kv))
          | None => None
          end))
    (List.filter (fun kv : string * Document => matches (snd kv))
       (map_to_list docs)).

(** [index.Search(req)] *)
Definition Search (E : Env) (index : Index) (req : SearchRequest)
  : M (result SearchResult) :=
  (record (CallSearch (idx_path index) req) ;;
   let* st := get_store (idx_path index) in
   match st with
   | Some (Healthy docs) =>
       match bleve_matches E (Query req) with
       | Ok matches => ret (Ok (mkSearchResult req (hits E req matches docs)))
       | Err e => ret (Err e)
       end
   | _ => ret (Err ErrorIndexClosed)
   end)%go.

(** [index.Close()]; its error is dropped by the caller. *)
Definition Close (index : Index) : M unit :=
  record (CallClose (idx_path index)).

End Bleve.

(** ** [src/unnamed/part_000]: the revision with [-v], [-vv] and pdfcpu *)

Module Part000.

(** The package-level variables, and what [flag.Args()] returns. *)
Record Globals : Type := mkGlobals {
  workDir : string;
  indexPath : string;
  verbose : bool;
  verbose2 : bool;
  pdfFile : string;
  bibtexFile : string;
  logger : Writer;
  flag_Args_ : list string
}.

Section WithEnv.
Context (E : Env).

(** The working directory of [init]: [Err] is its [panic(err)]. *)
Definition chooseWorkDir : result string :=
  let envDir := os_Getenv E "REFMAN_WORKDIR" in
  if nonempty envDir then Ok envDir
  else if String.eqb (runtime_GOOS E) "windows"
  then Ok (filepath_Join E (os_Getenv E "APPDATA") "refman")
  else match os_UserHomeDir E with
       | Err err => Err err
       | Ok home => Ok (filepath_Join E home ".local/share/refman")
       end.

(** [func init()]: the globals it leaves, or [Err] when it panics. *)
Definition init (cmd : CmdLine) : M (result Globals) :=
  (* parse flags *)
  let verbose := flag_v cmd in
  let verbose2 := flag_vv cmd in
  let pdfFile := flag_pdf cmd in
  let bibtexFile := flag_bibtex cmd in
  (* configure logger *)
  let logger := if verbose || verbose2 then W_Stderr else W_Discard in
  (* create and set workdir *)
  (let? workDir := pure chooseWorkDir in
   logger_Print logger ("Using working directory: " +:+ workDir) ;;
   let done :=
     ret (Ok (mkGlobals workDir (filepath_Join E workDir "index.bleve")
                verbose verbose2 pdfFile bibtexFile logger (flag_Args cmd))) in
   match os_MkdirAll E workDir with
   | Some err => if errors_Is_ErrExist err then done else ret (Err err)
   | None => done
   end)%go.

Variable g : Globals.

(** [func openIndex() (bleve.Index, error)] *)
Definition openIndex : M (result Index) :=
  (logger_Print (logger g) ("Opening index file: " +:+ indexPath g) ;;
   let* r := Bleve.Open (indexPath g) in
   let* r :=
     match r with
     | Err _ =>
         logger_Print (logger g) "Open failed, creating index." ;;
         let mapping := Bleve.NewIndexMapping in
         Bleve.New (indexPath g) mapping
     | Ok index => ret (Ok index)
     end in
   match r with
   | Err err => ret (Err err)
   | Ok index =>
       logger_Print (logger g) "Index loaded successfully." ;;
       ret (Ok index)
   end)%go.

(** [for i := 1; i <= ctx.PageCount; i++ { ... }], with [n] the number
    of iterations left: the builder after the loop, or the error that
    leaves [parseDocument]. *)
Fixpoint pageLoop (ctx : Context) (i : Z) (n : nat) (txt : string)
  : result string :=
  match n with
  | O => Ok txt
  | S n' =>
      match ExtractPageContent ctx i with
      | Err err => Err err
      | Ok None => pageLoop ctx (i + 1) n' txt
      | Ok (Some plainText) =>
          match io_Copy txt plainText with
          | Err err => Err err
          | Ok txt' => pageLoop ctx (i + 1) n' txt'
          end
      end
  end.

(** [func parseDocument() ( *Document, error)] *)
Definition parseDocument : M (result Document) :=
  (* parse pdf text *)
  (logger_Print (logger g) ("Opening PDF file: " +:+ pdfFile g) ;;
   let? ctx := pure (pdfcpuapi_ReadContextFile E (pdfFile g)) in
   logger_Print (logger g) ("Parsing PDF file: " +:+ pdfFile g) ;;
   match EnsurePageCount ctx with
   | Some err => ret (Err err)
   | None =>
       let? txt := pure (pageLoop ctx 1 (Z.to_nat (PageCount ctx)) "") in
       (* parse bibtex *)
       let? ref :=
         if nonempty (bibtexFile g) then
           logger_Print (logger g)
             ("Attempting to parse BibTeX file: " +:+ bibtexFile g) ;;
           let? f := pure (os_Open E (bibtexFile g)) in
           let? ref := pure (bibtex_Parse E f) in
           ret (Ok (Some ref))
         else ret (Ok None) in
       ret (Ok (mkDocument ref txt))
   end)%go.

(** [func addEntry(index bleve.Index) error] *)
Definition addEntry (index : Index) : M (result unit) :=
  (let? absPath := pure (filepath_Abs E (pdfFile g)) in
   let? doc := parseDocument in
   logger_Print (logger g) "Updating index file with new entry." ;;
   Bleve.Index_ index absPath doc)%go.

(** [func main()] *)
Definition main : M exit :=
  (let* r := openIndex in
   match r with
   | Err err => ret (Panicked err)
   | Ok index =>
       defer (Bleve.Close index)
         ((* add a new entry *)
          if nonempty (pdfFile g) then
            let* r := addEntry index in
            match r with
            | Err err => ret (Panicked err)
            | Ok _ => ret Returned
            end
          else
            (* perform search *)
            let args := flag_Args_ g in
            if Nat.eqb (length args) 0 then
              logger_Print (logger g) "No query given, leaving." ;;
              ret Returned
            else
              let s := strings_ReplaceAll (strings_Join args " ") "~" "-" in
              let searchRequest :=
                mkSearchRequest s
                  (if verbose2 g then Some ansi_Name else None) in
              let* r := Bleve.Search E index searchRequest in
              match r with
              | Err err => ret (Panicked err)
              | Ok result => fmt_Println result ;; ret Returned
              end)
   end)%go.

End WithEnv.

(** One invocation: [init], then [main]. *)
Definition run (E : Env) (cmd : CmdLine) : M exit :=
  (let* r := init E cmd in
   match r with
   | Err err => ret (Panicked err)
   | Ok g => main E g
   end)%go.

End Part000.

(** ** [src/main.go]: the revision with the buffered logger *)

Module MainGo.

(** The package-level variables, and what [flag.Args()] returns. The
    contents of the writer [stderr] are the field [stderr] of the world. *)
Record Globals : Type := mkGlobals {
  workDir : string;
  indexPath : string;
  pdfFile : string;
  bibtexFile : string;
  logger : Writer;
  flag_Args_ : list string
}.

Section WithEnv.
Context (E : Env).

(** The working directory of [init]: [Err] is its [panic(err)]. *)
Definition chooseWorkDir : result string :=
  let envDir := os_Getenv E "REFMAN_WORKDIR" in
  if nonempty envDir then Ok envDir
  else if String.eqb (runtime_GOOS E) "windows"
  then Ok (filepath_Join E (os_Getenv E "APPDATA") "refman")
  else match os_UserHomeDir E with
       | Err err => Err err
       | Ok home => Ok (filepath_Join E home ".local/share/refman")
       end.

(** [func init()]: the globals it leaves, or [Err] when it panics. The
    flags are parsed last; they are read from [cmd] where the record is
    built. *)
Definition init (cmd : CmdLine) : M (result Globals) :=
  (* open stderr buffer *)
  (bufio_NewWriter ;;
   let logger := W_Buffered in
   defer stderr_Flush
     ((* create and set workdir *)
      let? workDir := pure chooseWorkDir in
      logger_Print logger ("Using working directory: " +:+ workDir) ;;
      let done :=
        (* parse flags *)
        ret (Ok (mkGlobals workDir (filepath_Join E workDir "index.bleve")
                   (flag_pdf cmd) (flag_bibtex cmd) logger (flag_Args cmd))) in
      match os_MkdirAll E workDir with
      | Some err => if errors_Is_ErrExist err then done else ret (Err err)
      | None => done
      end))%go.

Variable g : Globals.

(** [func openIndex() (bleve.Index, error)] *)
Definition openIndex : M (result Index) :=
  (logger_Print (logger g) ("Opening index file: " +:+ indexPath g) ;;
   let* r := Bleve.Open (indexPath g) in
   let* r :=
     match r with
     | Err _ =>
         logger_Print (logger g) "Open failed, creating index." ;;
         let mapping := Bleve.NewIndexMapping in
         Bleve.New (indexPath g) mapping
     | Ok index => ret (Ok index)
     end in
   match r with
   | Err err => ret (Err err)
   | Ok index =>
       logger_Print (logger g) "Index loaded successfully." ;;
       ret (Ok index)
   end)%go.

(** [func parseDocument() ( *Document, error)]; the deferred [f.Close()]
    calls leave no trace in the world. *)
Definition parseDocument : M (result Document) :=
  (* parse pdf text *)
  (logger_Print (logger g) ("Opening PDF file: " +:+ pdfFile g) ;;
   let? reader := pure (pdf_Open E (pdfFile g)) in
   logger_Print (logger g) ("Parsing PDF file: " +:+ pdfFile g) ;;
   let? plainText := pure (GetPlainText reader) in
   let? txt := pure (io_Copy "" plainText) in
   (* parse bibtex *)
   let? ref :=
     if nonempty (bibtexFile g) then
       logger_Print (logger g)
         ("Attempting to parse BibTeX file: " +:+ bibtexFile g) ;;
       let? f := pure (os_Open E (bibtexFile g)) in
       let? ref := pure (bibtex_Parse E f) in
       ret (Ok (Some ref))
     else ret (Ok None) in
   ret (Ok (mkDocument ref txt)))%go.

(** [func addEntry(index bleve.Index) error] *)
Definition addEntry (index : Index) : M (result unit) :=
  (let? absPath := pure (filepath_Abs E (pdfFile g)) in
   let? doc := parseDocument in
   logger_Print (logger g) "Updating index file with new entry." ;;
   Bleve.Index_ index absPath doc)%go.

(** [func main()] *)
Definition main : M exit :=
  defer stderr_Flush
    (let* r := openIndex in
     match r with
     | Err err => ret (Panicked err)
     | Ok index =>
         defer (Bleve.Close index)
           ((* add a new entry *)
            if nonempty (pdfFile g) then
              let* r := addEntry index in
              match r with
              | Err err => ret (Panicked err)
              | Ok _ => ret Returned
              end
            else
              (* perform search *)
              let args := flag_Args_ g in
              if Nat.eqb (length args) 0 then
                logger_Print (logger g) "No query given, leaving." ;;
                ret Returned
              else
                let queryString := strings_Join args " " in
                let searchRequest :=
                  mkSearchRequest queryString (Some ansi_Name) in
                let* r := Bleve.Search E index searchRequest in
                match r with
                | Err err => ret (Panicked err)
                | Ok result => fmt_Println result ;; ret Returned
                end)
     end)%go.

End WithEnv.

(** One invocation: [init], then [main]. *)
Definition run (E : Env) (cmd : CmdLine) : M exit :=
  (let* r := init E cmd in
   match r with
   | Err err => ret (Panicked err)
   | Ok g => main E g
   end)%go.

End MainGo.

(** ** A sample environment

    One machine to run the two revisions on: a working directory [/w], a
    three-page [a.pdf] whose second page has no content, a [broken.pdf]
    that cannot be read, a well-formed [a.bib] and a malformed [bad.bib]. *)

Module Sample.

Definition a_pdf : Context :=
  mkContext None 3
    (fun i =>
       if Z.eqb i 1 then Ok (Some (Ok "distributed "))
       else if Z.eqb i 2 then Ok None
       else if Z.eqb i 3 then Ok (Some (Ok "consensus"))
       else Err (ErrOther "page out of range")).

Definition a_bib : BibTex :=
  [mkBibEntry "article" "lamport98" [("title", "The Part-Time Parliament")]].

Definition env : Env := {|
  os_Getenv := fun k => if String.eqb k "REFMAN_WORKDIR" then "/w" else "";
  runtime_GOOS := "linux";
  os_UserHomeDir := Ok "/home/u";
  os_MkdirAll := fun _ => None;
  filepath_Join := fun a b => a +:+ "/" +:+ b;
  filepath_Abs := fun p => Ok ("/cwd/" +:+ p);
  pdfcpuapi_ReadContextFile := fun p =>
    if String.eqb p "a.pdf" then Ok a_pdf else Err (ErrOther "not a PDF");
  pdf_Open := fun p =>
    if String.eqb p "a.pdf" then Ok (mkPdfReader (Ok (Ok "distributed consensus")))
    else Err (ErrOther "not a PDF");
  os_Open := fun p =>
    if String.eqb p "a.bib" then Ok "@article{lamport98}"
    else if String.eqb p "bad.bib" then Ok "@article{"
    else Err (ErrOther "no such file");
  bibtex_Parse := fun data =>
    if String.eqb data "@article{lamport98}" then Ok a_bib
    else Err (ErrOther "malformed BibTeX");
  bleve_matches := fun q =>
    if String.eqb q "" then Err (ErrOther "empty query")
    else Ok (fun d => String.prefix q (Txt d));
  bleve_fragments := fun q _ => [q]
|}.

(** The same machine after [a.pdf] was rewritten to a single page. *)
Definition a_pdf' : Context :=
  mkContext None 1 (fun _ => Ok (Some (Ok "paxos"))).

Definition env' : Env := {|
  os_Getenv := os_Getenv env;
  runtime_GOOS := runtime_GOOS env;
  os_UserHomeDir := os_UserHomeDir env;
  os_MkdirAll := os_MkdirAll env;
  filepath_Join := filepath_Join env;
  filepath_Abs := filepath_Abs env;
  pdfcpuapi_ReadContextFile := fun p =>
    if String.eqb p "a.pdf" then Ok a_pdf' else Err (ErrOther "not a PDF");
  pdf_Open := fun p =>
    if String.eqb p "a.pdf" then Ok (mkPdfReader (Ok (Ok "paxos")))
    else Err (ErrOther "not a PDF");
  os_Open := os_Open env;
  bibtex_Parse := bibtex_Parse env;
  bleve_matches := bleve_matches env;
  bleve_fragments := bleve_fragments env
|}.

(** A machine on which nothing was ever indexed, and one whose index
    cannot be read. *)
Definition fresh : World := mkWorld ∅ [] [] [] [].


Definition cmd (v vv : bool) (pdf bib : string) (args : list string) : CmdLine :=
  mkCmdLine v vv pdf bib args.

End Sample.

(** ** Reading a run *)

(** The search requests among the calls made into the store, and their
    query strings. *)
Definition requests (cs : list Call) : list SearchRequest :=
  omap (fun c => match c with CallSearch _ req => Some req | _ => None end) cs.

Definition queries (cs : list Call) : list string :=
  List.map Query (requests cs).

(** The insertions among the calls made into the store. *)
Definition insertions (cs : list Call) : list (string * Document) :=
  omap (fun c => match c with CallIndex _ id doc => Some (id, doc) | _ => None end)
    cs.

(** The documents a query can reach at [path]: those of a readable store,
    none where the store is absent or unreadable. *)
Definition docs_at (d : gmap string Store) (path : string) : gmap string Document :=
  match d !! path with
  | Some (Healthy docs) => docs
  | _ => ∅
  end.

(** The documents stored under one identifier. *)
Definition stored_under (id : string) (docs : gmap string Document)
  : list (string * Document) :=
  List.filter (fun kv : string * Document => String.eqb (fst kv) id)
    (map_to_list docs).

(** A string, byte by byte. *)
Fixpoint map_bytes (f : ascii -> ascii) (s : string) : string :=
  match s with
  | EmptyString => EmptyString
  | String c s' => String (f c) (map_bytes f s')
  end.

Definition tilde_to_dash (c : ascii) : ascii :=
  if Ascii.eqb c "~" then "-"%char else c.

(** What page [i] adds to the text: the bytes of its reader, nothing for a
    page without content. *)
Definition pageText (ctx : Context) (i : Z) : string :=
  match ExtractPageContent ctx i with
  | Ok (Some (Ok bytes)) => bytes
  | _ => ""
  end.

(** The pages 1 to [PageCount], in order, one after the other. *)
Definition pagesText (ctx : Context) : string :=
  String.concat "" (List.map (pageText ctx) (seqZ 1 (PageCount ctx))).

(** Page [i] can be read: it has no content, or a reader that reaches its
    end. *)
Definition page_readable (ctx : Context) (i : Z) : Prop :=
  ExtractPageContent ctx i = Ok None
  \/ exists bytes, ExtractPageContent ctx i = Ok (Some (Ok bytes)).

(** The BibTeX file named on the command line does not parse (it cannot be
    opened, or [bibtex.Parse] rejects it). *)
Definition bibtex_fails (E : Env) (bibtexFile : string) : Prop :=
  bibtexFile <> ""
  /\ (is_Ok (os_Open E bibtexFile) = false
      \/ exists f, os_Open E bibtexFile = Ok f /\ is_Ok (bibtex_Parse E f) = false).

(** The reference [parseDocument] attaches: none without [-bibtex]. *)
Definition bibtex_ref (E : Env) (bibtexFile : string) (ref : option BibTex) : Prop :=
  (bibtexFile = "" /\ ref = None)
  \/ (bibtexFile <> ""
      /\ exists f r, os_Open E bibtexFile = Ok f /\ bibtex_Parse E f = Ok r
                     /\ ref = Some r).

(** Text extraction fails in [src/unnamed/part_000]: the file cannot be
    read, its pages cannot be counted, or the page loop meets an error. *)
Definition extraction_fails_pdfcpu (E : Env) (pdfFile : string) : Prop :=
  is_Ok (pdfcpuapi_ReadContextFile E pdfFile) = false
  \/ exists ctx, pdfcpuapi_ReadContextFile E pdfFile = Ok ctx
       /\ (EnsurePageCount ctx <> None
           \/ is_Ok (Part000.pageLoop ctx 1 (Z.to_nat (PageCount ctx)) "") = false).

(** Text extraction fails in [src/main.go]: the file cannot be opened, has
    no plain text, or the copy of the text is interrupted. *)
Definition extraction_fails_pdf (E : Env) (pdfFile : string) : Prop :=
  is_Ok (pdf_Open E pdfFile) = false
  \/ exists reader, pdf_Open E pdfFile = Ok reader
       /\ (is_Ok (GetPlainText reader) = false
           \/ exists plainText, GetPlainText reader = Ok plainText
                /\ is_Ok (io_Copy "" plainText) = false).

(** What [openIndex] does with the store at [p], read off the disk. *)
Definition open_result (d : gmap string Store) (p : string) : result Index :=
  match d !! p with
  | Some (Unreadable _) => Err ErrorIndexPathExists
  | _ => Ok (mkIndex p)
  end.

Definition open_disk (d : gmap string Store) (p : string) : gmap string Store :=
  match d !! p with
  | None => <[p := Healthy ∅]> d
  | Some _ => d
  end.

Definition open_calls (d : gmap string Store) (p : string) : list Call :=
  CallOpen p :: match d !! p with
                | Some (Healthy _) => []
                | _ => [CallNew p]
                end.

(** The outcome [r] of an open is a new store at [p]: it comes without
    error, holds no document, and answers every query that parses, with no
    hit. *)
Definition created_empty (E : Env) (p : string) (r : result Index * World) : Prop :=
  fst r = Ok (mkIndex p)
  /\ disk (snd r) !! p = Some (Healthy ∅)
  /\ forall req matches,
       bleve_matches E (Query req) = Ok matches ->
       fst (Bleve.Search E (mkIndex p) req (snd r)) = Ok (mkSearchResult req []).


(** The index at [p] went from [d0] to [d2] by a full overwrite: under the
    identifier [id] it holds [doc], alone and whole, and every other
    identifier holds what it held. *)
Definition overwritten (id : string) (doc : Document) (d0 d2 : gmap string Store)
    (p : string) : Prop :=
  docs_at d2 p = <[id := doc]> (docs_at d0 p)
  /\ docs_at d2 p !! id = Some doc
  /\ stored_under id (docs_at d2 p) = [(id, doc)].

(** The globals [init] leaves on the sample machine. *)
Module SampleGlobals.

Definition part000 (v vv : bool) (pdf bib : string) (args : list string)
  : Part000.Globals :=
  Part000.mkGlobals "/w" "/w/index.bleve" v vv pdf bib
    (if v || vv then W_Stderr else W_Discard) args.

Definition maingo (pdf bib : string) (args : list string) : MainGo.Globals :=
  MainGo.mkGlobals "/w" "/w/index.bleve" pdf bib W_Buffered args.

End SampleGlobals.

(** ** Further readings of a run *)

(** The path at which a call into the store is made. *)
Definition call_path (c : Call) : string :=
  match c with
  | CallOpen p | CallNew p | CallIndex p _ _ | CallSearch p _ | CallClose p => p
  end.


Definition creations (cs : list Call) : list string :=
  omap (fun c => match c with CallNew p => Some p | _ => None end) cs.

(** What a run leaves to its user and to the next run, standard error
    apart: how it ended, the disk, standard output, the store calls. *)
Definition observed (r : exit * World)
  : exit * gmap string Store * list SearchResult * list Call :=
  (fst r, disk (snd r), os_Stdout (snd r), calls (snd r)).

(** The byte [c] occurs in [s]. *)
Fixpoint has_byte (c : ascii) (s : string) : bool :=
  match s with
  | EmptyString => false
  | String c' s' => Ascii.eqb c' c || has_byte c s'
  end.

(** The command line [cmd] with [-v] given or not. *)
Definition with_v (v : bool) (cmd : CmdLine) : CmdLine :=
  mkCmdLine v (flag_vv cmd) (flag_pdf cmd) (flag_bibtex cmd) (flag_Args cmd).

(** [os.MkdirAll] lets [init] go on: it succeeds, or fails with an error
    that [errors.Is] takes for [os.ErrExist]. *)
Definition mkdir_passes (E : Env) (dir : string) : Prop :=
  match os_MkdirAll E dir with
  | None => True
  | Some err => errors_Is_ErrExist err = true
  end.


(** Page [i] stops the loop with [e]: its extraction fails, or the copy of
    its content does. *)
Definition page_fails (ctx : Context) (i : Z) (e : error) : Prop :=
  ExtractPageContent ctx i = Err e
  \/ ExtractPageContent ctx i = Ok (Some (Err e)).

(** [init] returns in both revisions, with [wd] as the working directory
    and [index.bleve] in it as the path of the index. *)
Definition init_leaves (E : Env) (cmd : CmdLine) (w : World) (wd : string) : Prop :=
  (exists g, fst (Part000.init E cmd w) = Ok g
             /\ Part000.workDir g = wd
             /\ Part000.indexPath g = filepath_Join E wd "index.bleve")
  /\ (exists g, fst (MainGo.init E cmd w) = Ok g
                /\ MainGo.workDir g = wd
                /\ MainGo.indexPath g = filepath_Join E wd "index.bleve").

(** ** Machines on which something goes wrong *)

Module Faulty.

Definition set_home (h : result string) (getenv : string -> string)
    (goos : string) (E : Env) : Env := {|
  os_Getenv := getenv;
  runtime_GOOS := goos;
  os_UserHomeDir := h;
  os_MkdirAll := os_MkdirAll E;
  filepath_Join := filepath_Join E;
  filepath_Abs := filepath_Abs E;
  pdfcpuapi_ReadContextFile := pdfcpuapi_ReadContextFile E;
  pdf_Open := pdf_Open E;
  os_Open := os_Open E;
  bibtex_Parse := bibtex_Parse E;
  bleve_matches := bleve_matches E;
  bleve_fragments := bleve_fragments E
|}.

Definition set_MkdirAll (mk : string -> option error) (E : Env) : Env := {|
  os_Getenv := os_Getenv E;
  runtime_GOOS := runtime_GOOS E;
  os_UserHomeDir := os_UserHomeDir E;
  os_MkdirAll := mk;
  filepath_Join := filepath_Join E;
  filepath_Abs := filepath_Abs E;
  pdfcpuapi_ReadContextFile := pdfcpuapi_ReadContextFile E;
  pdf_Open := pdf_Open E;
  os_Open := os_Open E;
  bibtex_Parse := bibtex_Parse E;
  bleve_matches := bleve_matches E;
  bleve_fragments := bleve_fragments E
|}.

Definition set_Abs (abs : string -> result string) (E : Env) : Env := {|
  os_Getenv := os_Getenv E;
  runtime_GOOS := runtime_GOOS E;
  os_UserHomeDir := os_UserHomeDir E;
  os_MkdirAll := os_MkdirAll E;
  filepath_Join := filepath_Join E;
  filepath_Abs := abs;
  pdfcpuapi_ReadContextFile := pdfcpuapi_ReadContextFile E;
  pdf_Open := pdf_Open E;
  os_Open := os_Open E;
  bibtex_Parse := bibtex_Parse E;
  bleve_matches := bleve_matches E;
  bleve_fragments := bleve_fragments E
|}.

Definition set_ReadContextFile (rd : string -> result Context) (E : Env) : Env := {|
  os_Getenv := os_Getenv E;
  runtime_GOOS := runtime_GOOS E;
  os_UserHomeDir := os_UserHomeDir E;
  os_MkdirAll := os_MkdirAll E;
  filepath_Join := filepath_Join E;
  filepath_Abs := filepath_Abs E;
  pdfcpuapi_ReadContextFile := rd;
  pdf_Open := pdf_Open E;
  os_Open := os_Open E;
  bibtex_Parse := bibtex_Parse E;
  bleve_matches := bleve_matches E;
  bleve_fragments := bleve_fragments E
|}.


(** [REFMAN_WORKDIR] set for a user without a home directory. *)
Definition homeless_override : Env :=
  set_home (Err (ErrOther "$HOME is not defined"))
    (fun k => if String.eqb k "REFMAN_WORKDIR" then "/w" else "") "linux"
    Sample.env.

(** Windows, with [APPDATA] and no [REFMAN_WORKDIR]. *)
Definition windows : Env :=
  set_home (Err (ErrOther "%userprofile% is not defined"))
    (fun k => if String.eqb k "APPDATA" then "C:/AppData" else "") "windows"
    Sample.env.

(** A working directory that cannot be created, and one that
    [os.MkdirAll] reports as existing. *)
Definition read_only : Env :=
  set_MkdirAll (fun _ => Some (ErrOther "permission denied")) Sample.env.

Definition already_there : Env :=
  set_MkdirAll (fun _ => Some ErrExist) Sample.env.

(** A process whose current directory is gone: [filepath.Abs] fails. *)
Definition no_cwd : Env :=
  set_Abs (fun _ => Err (ErrOther "getwd: no such file or directory"))
    Sample.env.

(** A PDF whose second page of three cannot be extracted, and one with no
    page at all. *)
Definition torn_pdf : Context :=
  mkContext None 3
    (fun i =>
       if Z.eqb i 1 then Ok (Some (Ok "distributed "))
       else if Z.eqb i 2 then Err (ErrOther "corrupt page")
       else Ok (Some (Ok "consensus"))).

Definition blank_pdf : Context :=
  mkContext None 0 (fun _ => Err (ErrOther "page out of range")).

Definition pdfs : Env :=
  set_ReadContextFile
    (fun p =>
       if String.eqb p "torn.pdf" then Ok torn_pdf
       else if String.eqb p "blank.pdf" then Ok blank_pdf
       else pdfcpuapi_ReadContextFile Sample.env p)
    Sample.env.

End Faulty.

(** * Properties *)

Local Arguments nonempty : simpl never.
Local Arguments String.append : simpl never.
Local Arguments strings_ReplaceAll : simpl never.
Local Arguments strings_Join : simpl never.

(** ** Proof steps shared by the two revisions *)

Ltac go_unfold :=
  cbv [Part000.run Part000.init Part000.main Part000.openIndex Part000.addEntry
       Part000.parseDocument
       MainGo.run MainGo.init MainGo.main MainGo.openIndex MainGo.addEntry
       MainGo.parseDocument
       defer bind try ret pure logger_Print put_os_Stderr put_stderr
       stderr_Flush bufio_NewWriter fmt_Println
       Bleve.Open Bleve.New Bleve.Index_ Bleve.Search Bleve.Close
       Bleve.record Bleve.set_store Bleve.get_store Bleve.NewIndexMapping].

(** One step of symbolic execution: simplify, reuse what is known of a
    scrutinee, or split on an innermost scrutinee. *)
Ltac go_step :=
  first
    [ progress simpl
    | match goal with
      | H : ?x = _ |- context [match ?x with _ => _ end] => rewrite H
      end
    | match goal with
      | |- context [match ?x with _ => _ end] =>
          lazymatch x with
          | context [match _ with _ => _ end] => fail
          | _ => destruct x eqn:?
          end
      end ].

Ltac go_cases := repeat go_step.

Ltac go := go_unfold; go_cases.

Lemma nonempty_true (s : string) : nonempty s = true <-> s <> "".
Proof.
  unfold nonempty. rewrite negb_true_iff. apply String.eqb_neq.
Qed.

Lemma nonempty_false (s : string) : nonempty s = false <-> s = "".
Proof.
  unfold nonempty. rewrite negb_false_iff. apply String.eqb_eq.
Qed.

(** ** [openIndex] *)

Lemma Part000_openIndex_spec g w :
  let r := Part000.openIndex g w in
  fst r = open_result (disk w) (Part000.indexPath g)
  /\ disk (snd r) = open_disk (disk w) (Part000.indexPath g)
  /\ calls (snd r) = calls w ++ open_calls (disk w) (Part000.indexPath g)
  /\ os_Stdout (snd r) = os_Stdout w.
Proof.
  unfold open_result, open_disk, open_calls. go;
    rewrite <- ?app_assoc; simpl; auto.
Qed.

Lemma MainGo_openIndex_spec g w :
  let r := MainGo.openIndex g w in
  fst r = open_result (disk w) (MainGo.indexPath g)
  /\ disk (snd r) = open_disk (disk w) (MainGo.indexPath g)
  /\ calls (snd r) = calls w ++ open_calls (disk w) (MainGo.indexPath g)
  /\ os_Stdout (snd r) = os_Stdout w.
Proof.
  unfold open_result, open_disk, open_calls. go;
    rewrite <- ?app_assoc; simpl; auto.
Qed.

Lemma created_empty_intro E p (r : result Index * World) :
  fst r = Ok (mkIndex p) ->
  disk (snd r) !! p = Some (Healthy ∅) ->
  created_empty E p r.
Proof.
  intros Hr Hd. repeat split; trivial.
  intros req matches Hm. unfold Bleve.Search. go_unfold. simpl.
  rewrite Hd, Hm. unfold Bleve.hits. now rewrite map_to_list_empty.
Qed.

(** C4. Opening the index where nothing lies does not fail: [openIndex]
    returns a store created at the index path, empty and queryable. *)
Theorem C4_open_absent_creates E (g : Part000.Globals) (g' : MainGo.Globals) w :
  disk w !! Part000.indexPath g = None ->
  disk w !! MainGo.indexPath g' = None ->
  created_empty E (Part000.indexPath g) (Part000.openIndex g w)
  /\ created_empty E (MainGo.indexPath g') (MainGo.openIndex g' w).
Proof.
  intros H H'.
  destruct (Part000_openIndex_spec g w) as (Hr & Hd & _).
  destruct (MainGo_openIndex_spec g' w) as (Hr' & Hd' & _).
  unfold open_result, open_disk in *. rewrite H in Hr, Hd. rewrite H' in Hr', Hd'.
  split; apply created_empty_intro; trivial.
  - rewrite Hd. apply lookup_insert_eq.
  - rewrite Hd'. apply lookup_insert_eq.
Qed.

Lemma C4_open_absent_creates_witness :
  disk Sample.fresh !! "/w/index.bleve" = None
  /\ created_empty Sample.env "/w/index.bleve"
    (Part000.openIndex (SampleGlobals.part000 false false "" "" []) Sample.fresh)
  /\ created_empty Sample.env "/w/index.bleve"
       (MainGo.openIndex (SampleGlobals.maingo "" "" []) Sample.fresh).
Proof.
  split; [reflexivity |].
  apply (C4_open_absent_creates Sample.env
           (SampleGlobals.part000 false false "" "" [])
           (SampleGlobals.maingo "" "" []) Sample.fresh); reflexivity.
Defined.

(** ** The error of a failed open *)






(** ** A run without [-pdf] and without query terms *)

Lemma requests_app cs cs' : requests (cs ++ cs') = requests cs ++ requests cs'.
Proof. apply omap_app. Qed.

Lemma insertions_app cs cs' :
  insertions (cs ++ cs') = insertions cs ++ insertions cs'.
Proof. apply omap_app. Qed.

Lemma queries_app cs cs' : queries (cs ++ cs') = queries cs ++ queries cs'.
Proof. unfold queries. now rewrite requests_app, List.map_app. Qed.




(** ** The query string *)

Lemma replace_tilde s :
  strings_ReplaceAll s "~" "-" = map_bytes tilde_to_dash s.
Proof.
  unfold strings_ReplaceAll.
  induction s as [| c s IH]; [reflexivity |].
  cbn [replace_from String.prefix String.length Nat.sub map_bytes].
  unfold tilde_to_dash at 1.
  destruct (ascii_dec "~" c) as [<- | Hne].
  - replace (String.prefix "" s) with true by (now destruct s).
    now rewrite IH.
  - rewrite IH. destruct (Ascii.eqb_spec c "~"); [congruence | reflexivity].
Qed.

Lemma Part000_main_search E g w :
  Part000.pdfFile g = "" -> Part000.flag_Args_ g <> [] ->
  is_Ok (fst (Part000.openIndex g w)) = true ->
  let req := mkSearchRequest
               (strings_ReplaceAll (strings_Join (Part000.flag_Args_ g) " ") "~" "-")
               (if Part000.verbose2 g then Some ansi_Name else None) in
  let w1 := snd (Part000.openIndex g w) in
  let s := Bleve.Search E (mkIndex (Part000.indexPath g)) req w1 in
  calls (snd (Part000.main E g w))
  = calls w ++ open_calls (disk w) (Part000.indexPath g)
      ++ [CallSearch (Part000.indexPath g) req; CallClose (Part000.indexPath g)]
  /\ disk (snd (Part000.main E g w)) = open_disk (disk w) (Part000.indexPath g)
  /\ fst (Part000.main E g w)
     = match fst s with Ok _ => Returned | Err e => Panicked e end
  /\ os_Stdout (snd (Part000.main E g w))
     = os_Stdout w ++ match fst s with Ok res => [res] | Err _ => [] end.
Proof.
  intros Hp Ha Ho. apply nonempty_false in Hp.
  destruct (Part000_openIndex_spec g w) as (Hr & _). rewrite Hr in Ho.
  unfold open_result, open_calls, open_disk in *.
  destruct (Part000.flag_Args_ g) as [| a args] eqn:Hargs; [congruence |].
  destruct (disk w !! Part000.indexPath g) as [[docs | e] |] eqn:Hd;
    try discriminate;
    go_unfold; rewrite ?Hp, ?Hargs; go_cases;
    rewrite <- ?app_assoc, ?app_nil_r; simpl; auto;
    simplify_map_eq.
Qed.

Lemma MainGo_main_search E g w :
  MainGo.pdfFile g = "" -> MainGo.flag_Args_ g <> [] ->
  is_Ok (fst (MainGo.openIndex g w)) = true ->
  let req := mkSearchRequest (strings_Join (MainGo.flag_Args_ g) " ")
               (Some ansi_Name) in
  let w1 := snd (MainGo.openIndex g w) in
  let s := Bleve.Search E (mkIndex (MainGo.indexPath g)) req w1 in
  calls (snd (MainGo.main E g w))
  = calls w ++ open_calls (disk w) (MainGo.indexPath g)
      ++ [CallSearch (MainGo.indexPath g) req; CallClose (MainGo.indexPath g)]
  /\ disk (snd (MainGo.main E g w)) = open_disk (disk w) (MainGo.indexPath g)
  /\ fst (MainGo.main E g w)
     = match fst s with Ok _ => Returned | Err e => Panicked e end
  /\ os_Stdout (snd (MainGo.main E g w))
     = os_Stdout w ++ match fst s with Ok res => [res] | Err _ => [] end.
Proof.
  intros Hp Ha Ho. apply nonempty_false in Hp.
  destruct (MainGo_openIndex_spec g w) as (Hr & _). rewrite Hr in Ho.
  unfold open_result, open_calls, open_disk in *.
  destruct (MainGo.flag_Args_ g) as [| a args] eqn:Hargs; [congruence |].
  destruct (disk w !! MainGo.indexPath g) as [[docs | e] |] eqn:Hd;
    try discriminate;
    go_unfold; rewrite ?Hp, ?Hargs; go_cases;
    rewrite <- ?app_assoc, ?app_nil_r; simpl; auto;
    simplify_map_eq.
Qed.

Lemma queries_open_calls d p : queries (open_calls d p) = [].
Proof.
  unfold open_calls. now destruct (d !! p) as [[] |].
Qed.

Lemma requests_open_calls d p : requests (open_calls d p) = [].
Proof.
  unfold open_calls. now destruct (d !! p) as [[] |].
Qed.

(** C2, as the code has it. The query handed to the store is built from
    the space-joined arguments: [src/main.go] submits the join itself;
    [src/unnamed/part_000] submits the join with every [~] replaced by [-]
    and no other byte changed. *)
Theorem C2_query_is_join_tilde_rewritten E
    (g : Part000.Globals) (g' : MainGo.Globals) w :
  Part000.pdfFile g = "" -> Part000.flag_Args_ g <> [] ->
  is_Ok (fst (Part000.openIndex g w)) = true ->
  MainGo.pdfFile g' = "" -> MainGo.flag_Args_ g' <> [] ->
  is_Ok (fst (MainGo.openIndex g' w)) = true ->
  queries (calls (snd (Part000.main E g w)))
  = queries (calls w)
      ++ [map_bytes tilde_to_dash (strings_Join (Part000.flag_Args_ g) " ")]
  /\ queries (calls (snd (MainGo.main E g' w)))
     = queries (calls w) ++ [strings_Join (MainGo.flag_Args_ g') " "].
Proof.
  intros Hp Ha Ho Hp' Ha' Ho'.
  destruct (Part000_main_search E g w Hp Ha Ho) as (Hc & _).
  destruct (MainGo_main_search E g' w Hp' Ha' Ho') as (Hc' & _).
  rewrite Hc, Hc', !queries_app, !queries_open_calls, <- replace_tilde.
  split; reflexivity.
Qed.

Lemma C2_query_is_join_tilde_rewritten_witness :
  let g := SampleGlobals.part000 false false "" "" ["raft"; "paxos~2"] in
  let g' := SampleGlobals.maingo "" "" ["raft"; "paxos~2"] in
  queries (calls (snd (Part000.main Sample.env g Sample.fresh)))
  = [] ++ [map_bytes tilde_to_dash "raft paxos~2"]
  /\ queries (calls (snd (MainGo.main Sample.env g' Sample.fresh)))
     = [] ++ ["raft paxos~2"].
Proof.
  exact (C2_query_is_join_tilde_rewritten Sample.env
           (SampleGlobals.part000 false false "" "" ["raft"; "paxos~2"])
           (SampleGlobals.maingo "" "" ["raft"; "paxos~2"]) Sample.fresh
           eq_refl ltac:(discriminate) eq_refl
           eq_refl ltac:(discriminate) eq_refl).
Defined.

(** C2, as stated, fails in [src/unnamed/part_000] for a term with a fuzzy
    marker: the arguments [raft paxos~2] join to [raft paxos~2], and the
    query submitted is [raft paxos-2]. *)
Lemma C2_counterexample :
  let args := ["raft"; "paxos~2"] in
  let w := snd (Part000.run Sample.env (Sample.cmd false false "" "" args)
                  Sample.fresh) in
  strings_Join args " " = "raft paxos~2"
  /\ queries (calls w) = ["raft paxos-2"]
  /\ queries (calls w) <> [strings_Join args " "].
Proof.
  repeat split; try (vm_compute; reflexivity).
  vm_compute. discriminate.
Qed.

(** ** Highlighting *)




(** ** The page loop *)

Lemma append_nil_r (s : string) : s +:+ "" = s.
Proof.
  induction s as [| c s IH]; [reflexivity |].
  change (String c (s +:+ "") = String c s). now rewrite IH.
Qed.

Lemma append_assoc (s t u : string) : (s +:+ t) +:+ u = s +:+ t +:+ u.
Proof.
  induction s as [| c s IH]; [reflexivity |].
  change (String c ((s +:+ t) +:+ u) = String c (s +:+ t +:+ u)).
  now rewrite IH.
Qed.

Lemma concat_cons (x : string) (xs : list string) :
  String.concat "" (x :: xs) = x +:+ String.concat "" xs.
Proof.
  destruct xs as [| y ys]; [| reflexivity].
  change (x = x +:+ ""). now rewrite append_nil_r.
Qed.

(** The text of the pages [i], [i+1], ..., the next [n] of them. *)
Lemma pagesText_step ctx i (n : nat) :
  String.concat "" (List.map (pageText ctx) (seqZ i (Z.of_nat (S n))))
  = pageText ctx i
      +:+ String.concat "" (List.map (pageText ctx) (seqZ (i + 1) (Z.of_nat n))).
Proof.
  rewrite seqZ_cons by lia.
  replace (Z.pred (Z.of_nat (S n))) with (Z.of_nat n) by lia.
  replace (Z.succ i) with (i + 1)%Z by lia.
  cbn [List.map]. apply concat_cons.
Qed.

(** Loop invariant, first half: a loop that ends without error has
    appended the text of each page it went through, in order. *)
Lemma pageLoop_Ok ctx (n : nat) : forall i txt t,
  Part000.pageLoop ctx i n txt = Ok t ->
  t = txt +:+ String.concat "" (List.map (pageText ctx) (seqZ i (Z.of_nat n))).
Proof.
  induction n as [| n IH]; intros i txt t H.
  - cbn in H. injection H as <-. cbn. now rewrite append_nil_r.
  - rewrite pagesText_step. cbn [Part000.pageLoop] in H. unfold pageText.
    destruct (ExtractPageContent ctx i) as [[[bytes | e] |] | e];
      cbn in H; try discriminate.
    + apply IH in H. now rewrite H, append_assoc.
    + apply IH in H. exact H.
Qed.

(** Loop invariant, second half: pages that can be read, with or without
    content, never stop the loop. *)
Lemma pageLoop_readable ctx (n : nat) : forall i txt,
  (forall j, (i <= j < i + Z.of_nat n)%Z -> page_readable ctx j) ->
  Part000.pageLoop ctx i n txt
  = Ok (txt +:+ String.concat "" (List.map (pageText ctx) (seqZ i (Z.of_nat n)))).
Proof.
  induction n as [| n IH]; intros i txt Hr.
  - cbn. now rewrite append_nil_r.
  - rewrite pagesText_step. cbn [Part000.pageLoop]. unfold pageText at 1.
    destruct (Hr i ltac:(lia)) as [-> | [bytes ->]]; cbn.
    + apply IH. intros j Hj. apply Hr. lia.
    + rewrite IH by (intros j Hj; apply Hr; lia). now rewrite append_assoc.
Qed.

(** The text [parseDocument] returns is the text of the pages. *)
Lemma Part000_parseDocument_text E g w doc :
  fst (Part000.parseDocument E g w) = Ok doc ->
  exists ctx,
    pdfcpuapi_ReadContextFile E (Part000.pdfFile g) = Ok ctx
    /\ Txt doc = pagesText ctx.
Proof.
  go_unfold.
  destruct (pdfcpuapi_ReadContextFile E (Part000.pdfFile g)) as [ctx | e];
    [| go_cases; discriminate].
  destruct (Part000.pageLoop ctx 1 (Z.to_nat (PageCount ctx)) "") as [txt | e]
    eqn:Hloop; [| go_cases; discriminate].
  apply pageLoop_Ok in Hloop. cbn [String.append] in Hloop.
  intros H. exists ctx. split; [reflexivity |].
  assert (Txt doc = txt) as ->
    by (revert H; go_cases; intros [= <-] || discriminate; reflexivity).
  rewrite Hloop. unfold pagesText.
  destruct (Z.le_gt_cases 0 (PageCount ctx)).
  - now rewrite Z2Nat.id.
  - rewrite (seqZ_nil 1 (PageCount ctx)) by lia.
    now replace (Z.to_nat (PageCount ctx)) with 0%nat by lia.
Qed.

(** Pages that can be read, the empty ones among them, give a document. *)
Lemma Part000_parseDocument_readable E g w ctx ref :
  pdfcpuapi_ReadContextFile E (Part000.pdfFile g) = Ok ctx ->
  EnsurePageCount ctx = None ->
  (forall i, (1 <= i <= PageCount ctx)%Z -> page_readable ctx i) ->
  bibtex_ref E (Part000.bibtexFile g) ref ->
  fst (Part000.parseDocument E g w) = Ok (mkDocument ref (pagesText ctx)).
Proof.
  intros Hctx Hens Hpages Hbib. go_unfold. rewrite Hctx, Hens.
  rewrite pageLoop_readable by (intros j Hj; apply Hpages; lia).
  cbn [String.append]. unfold pagesText.
  replace (Z.of_nat (Z.to_nat (PageCount ctx))) with (Z.max 0 (PageCount ctx))
    by lia.
  assert (seqZ 1 (Z.max 0 (PageCount ctx)) = seqZ 1 (PageCount ctx)) as ->.
  { destruct (Z.le_gt_cases 0 (PageCount ctx)).
    - now rewrite Z.max_r.
    - rewrite Z.max_l, !seqZ_nil by lia. reflexivity. }
  destruct Hbib as [[Hb ->] | [Hb (f & r & Hf & Hr & ->)]].
  - apply nonempty_false in Hb. rewrite Hb. go_cases; reflexivity.
  - apply nonempty_true in Hb. rewrite Hb, Hf, Hr. go_cases; reflexivity.
Qed.

(** ** Ingestion that fails *)

(** [parseDocument] reads; it changes neither the disk, nor the trace of
    store calls, nor standard output. *)
Lemma Part000_parseDocument_frame E g w :
  let r := Part000.parseDocument E g w in
  disk (snd r) = disk w /\ calls (snd r) = calls w
  /\ os_Stdout (snd r) = os_Stdout w.
Proof. go; auto. Qed.

Lemma MainGo_parseDocument_frame E g w :
  let r := MainGo.parseDocument E g w in
  disk (snd r) = disk w /\ calls (snd r) = calls w
  /\ os_Stdout (snd r) = os_Stdout w.
Proof. go; auto. Qed.

Lemma Part000_parseDocument_fails E g w :
  extraction_fails_pdfcpu E (Part000.pdfFile g)
  \/ bibtex_fails E (Part000.bibtexFile g) ->
  is_Ok (fst (Part000.parseDocument E g w)) = false.
Proof.
  intros [[Hx | (ctx & Hctx & [Hx | Hx])] | [Hb Hx]].
  - go_unfold. destruct (pdfcpuapi_ReadContextFile E _); [discriminate |].
    go_cases; reflexivity.
  - go_unfold. rewrite Hctx.
    destruct (EnsurePageCount ctx); [| congruence]. go_cases; reflexivity.
  - go_unfold. rewrite Hctx.
    destruct (Part000.pageLoop ctx 1 _ ""); [discriminate |].
    go_cases; reflexivity.
  - apply nonempty_true in Hb. go_unfold. rewrite Hb.
    destruct Hx as [Hx | (f & Hf & Hx)].
    + destruct (os_Open E _); [discriminate |]. go_cases; reflexivity.
    + rewrite Hf. destruct (bibtex_Parse E f); [discriminate |].
      go_cases; reflexivity.
Qed.

Lemma MainGo_parseDocument_fails E g w :
  extraction_fails_pdf E (MainGo.pdfFile g)
  \/ bibtex_fails E (MainGo.bibtexFile g) ->
  is_Ok (fst (MainGo.parseDocument E g w)) = false.
Proof.
  intros [[Hx | (rd & Hrd & [Hx | (pt & Hpt & Hx)])] | [Hb Hx]].
  - go_unfold. destruct (pdf_Open E _); [discriminate |].
    go_cases; reflexivity.
  - go_unfold. rewrite Hrd.
    destruct (GetPlainText rd); [discriminate |]. go_cases; reflexivity.
  - go_unfold. rewrite Hrd, Hpt.
    destruct (io_Copy "" pt); [discriminate |]. go_cases; reflexivity.
  - apply nonempty_true in Hb. go_unfold. rewrite Hb.
    destruct Hx as [Hx | (f & Hf & Hx)].
    + destruct (os_Open E _); [discriminate |]. go_cases; reflexivity.
    + rewrite Hf. destruct (bibtex_Parse E f); [discriminate |].
      go_cases; reflexivity.
Qed.

(** [addEntry] with a [parseDocument] that fails: the error is returned
    before [index.Index] is reached. *)
Lemma Part000_addEntry_parse_error E g index w :
  is_Ok (fst (Part000.parseDocument E g w)) = false ->
  let r := Part000.addEntry E g index w in
  is_Ok (fst r) = false /\ disk (snd r) = disk w /\ calls (snd r) = calls w
  /\ os_Stdout (snd r) = os_Stdout w.
Proof.
  intros Hf. destruct (Part000_parseDocument_frame E g w) as (Hd & Hc & Ho).
  unfold Part000.addEntry, try, bind, pure, ret. cbv zeta.
  destruct (filepath_Abs E (Part000.pdfFile g)) as [absPath | e]; [| auto].
  destruct (Part000.parseDocument E g w) as [[doc | e] w'];
    [discriminate | auto].
Qed.

Lemma MainGo_addEntry_parse_error E g index w :
  is_Ok (fst (MainGo.parseDocument E g w)) = false ->
  let r := MainGo.addEntry E g index w in
  is_Ok (fst r) = false /\ disk (snd r) = disk w /\ calls (snd r) = calls w
  /\ os_Stdout (snd r) = os_Stdout w.
Proof.
  intros Hf. destruct (MainGo_parseDocument_frame E g w) as (Hd & Hc & Ho).
  unfold MainGo.addEntry, try, bind, pure, ret. cbv zeta.
  destruct (filepath_Abs E (MainGo.pdfFile g)) as [absPath | e]; [| auto].
  destruct (MainGo.parseDocument E g w) as [[doc | e] w'];
    [discriminate | auto].
Qed.

(** C3. When the text of the PDF cannot be extracted, or the BibTeX file
    given with it does not parse, [addEntry] returns an error without any
    call into the store: the disk is as it was, so no document and no
    metadata were written. This holds in both revisions. *)
Theorem C3_failed_ingestion_writes_nothing E index w :
  (forall g : Part000.Globals,
      extraction_fails_pdfcpu E (Part000.pdfFile g)
      \/ bibtex_fails E (Part000.bibtexFile g) ->
      let r := Part000.addEntry E g index w in
      is_Ok (fst r) = false
      /\ disk (snd r) = disk w
      /\ calls (snd r) = calls w)
  /\ (forall g : MainGo.Globals,
      extraction_fails_pdf E (MainGo.pdfFile g)
      \/ bibtex_fails E (MainGo.bibtexFile g) ->
      let r := MainGo.addEntry E g index w in
      is_Ok (fst r) = false
      /\ disk (snd r) = disk w
      /\ calls (snd r) = calls w).
Proof.
  split; intros g Hfail.
  - apply (Part000_parseDocument_fails E g w) in Hfail.
    destruct (Part000_addEntry_parse_error E g index w Hfail) as (? & ? & ? & _).
    auto.
  - apply (MainGo_parseDocument_fails E g w) in Hfail.
    destruct (MainGo_addEntry_parse_error E g index w Hfail) as (? & ? & ? & _).
    auto.
Qed.

Lemma C3_failed_ingestion_writes_nothing_witness :
  let w := snd (Part000.run Sample.env
                  (Sample.cmd false false "a.pdf" "" []) Sample.fresh) in
  let g := SampleGlobals.part000 false false "broken.pdf" "" [] in
  let g' := SampleGlobals.maingo "a.pdf" "bad.bib" [] in
  let r := Part000.addEntry Sample.env g (mkIndex "/w/index.bleve") w in
  let r' := MainGo.addEntry Sample.env g' (mkIndex "/w/index.bleve") w in
  (is_Ok (fst r) = false /\ disk (snd r) = disk w /\ calls (snd r) = calls w)
  /\ (is_Ok (fst r') = false /\ disk (snd r') = disk w
      /\ calls (snd r') = calls w).
Proof.
  pose proof (C3_failed_ingestion_writes_nothing Sample.env
                (mkIndex "/w/index.bleve")
                (snd (Part000.run Sample.env
                        (Sample.cmd false false "a.pdf" "" []) Sample.fresh)))
    as [H H'].
  split.
  - apply (H (SampleGlobals.part000 false false "broken.pdf" "" [])).
    left. left. reflexivity.
  - apply (H' (SampleGlobals.maingo "a.pdf" "bad.bib" [])).
    right. split; [discriminate |]. right.
    exists "@article{". split; reflexivity.
Defined.

(** ** [init] *)

Lemma Part000_init_spec E cmd w :
  let r := Part000.init E cmd w in
  disk (snd r) = disk w /\ calls (snd r) = calls w
  /\ os_Stdout (snd r) = os_Stdout w /\ stderr (snd r) = stderr w
  /\ os_Stderr (snd r)
     = os_Stderr w
         ++ match Part000.chooseWorkDir E with
            | Ok wd => if flag_v cmd || flag_vv cmd
                       then ["Using working directory: " +:+ wd]
                       else []
            | Err _ => []
            end
  /\ forall g, fst r = Ok g ->
       Part000.pdfFile g = flag_pdf cmd
       /\ Part000.bibtexFile g = flag_bibtex cmd
       /\ Part000.flag_Args_ g = flag_Args cmd
       /\ Part000.verbose2 g = flag_vv cmd
       /\ Part000.logger g
          = (if flag_v cmd || flag_vv cmd then W_Stderr else W_Discard).
Proof.
  go_unfold.
  destruct (flag_v cmd || flag_vv cmd) eqn:Hv;
    destruct (Part000.chooseWorkDir E) as [wd | e]; go_cases;
    rewrite ?app_nil_r; repeat split; auto; try discriminate;
    match goal with H : Ok _ = Ok _ |- _ => injection H as <- end;
    simpl; auto.
Qed.


(** ** [main] with [-pdf] *)

(** After a successful open, [main] with [-pdf] is [addEntry] followed by
    the deferred calls. *)
Lemma Part000_main_ingest E g w index w1 :
  Part000.pdfFile g <> "" ->
  Part000.openIndex g w = (Ok index, w1) ->
  let a := Part000.addEntry E g index w1 in
  fst (Part000.main E g w)
  = match fst a with Ok _ => Returned | Err e => Panicked e end
  /\ snd (Part000.main E g w) = snd (Bleve.Close index (snd a)).
Proof.
  intros Hp Ho. apply nonempty_true in Hp.
  unfold Part000.main, defer, bind, ret. rewrite Ho, Hp. cbv zeta.
  destruct (Part000.addEntry E g index w1) as [[[] | e] w2]; simpl;
    destruct (Bleve.Close index w2); auto.
Qed.

Lemma MainGo_main_ingest E g w index w1 :
  MainGo.pdfFile g <> "" ->
  MainGo.openIndex g w = (Ok index, w1) ->
  let a := MainGo.addEntry E g index w1 in
  fst (MainGo.main E g w)
  = match fst a with Ok _ => Returned | Err e => Panicked e end
  /\ snd (MainGo.main E g w)
     = snd (stderr_Flush (snd (Bleve.Close index (snd a)))).
Proof.
  intros Hp Ho. apply nonempty_true in Hp.
  unfold MainGo.main, defer, bind, ret. rewrite Ho, Hp. cbv zeta.
  destruct (MainGo.addEntry E g index w1) as [[[] | e] w2]; simpl;
    destruct (Bleve.Close index w2) as [u w3]; simpl;
    destruct (stderr_Flush w3); auto.
Qed.

Ltac trace_simpl :=
  rewrite ?requests_app, ?insertions_app; simpl; rewrite ?app_nil_r.

(** With [-pdf], whatever else is on the command line, no search is run
    and nothing is printed. *)
Lemma Part000_main_ingest_quiet E g w :
  Part000.pdfFile g <> "" ->
  requests (calls (snd (Part000.main E g w))) = requests (calls w)
  /\ os_Stdout (snd (Part000.main E g w)) = os_Stdout w.
Proof.
  intros Hp. apply nonempty_true in Hp.
  go_unfold. rewrite Hp. go_cases; trace_simpl; auto.
Qed.

Lemma MainGo_main_ingest_quiet E g w :
  MainGo.pdfFile g <> "" ->
  requests (calls (snd (MainGo.main E g w))) = requests (calls w)
  /\ os_Stdout (snd (MainGo.main E g w)) = os_Stdout w.
Proof.
  intros Hp. apply nonempty_true in Hp.
  go_unfold. rewrite Hp. go_cases; trace_simpl; auto.
Qed.

(** ** [main] without [-pdf] *)

Lemma docs_at_open_disk d p : docs_at (open_disk d p) p = docs_at d p.
Proof.
  unfold docs_at, open_disk.
  destruct (d !! p) as [[] |] eqn:Hd; rewrite ?Hd; [reflexivity .. |].
  now rewrite lookup_insert_eq.
Qed.

(** Without [-pdf] nothing is inserted: the documents of the index are
    those it had. *)
Lemma Part000_main_query_no_insert E g w :
  Part000.pdfFile g = "" ->
  insertions (calls (snd (Part000.main E g w))) = insertions (calls w)
  /\ disk (snd (Part000.main E g w)) = open_disk (disk w) (Part000.indexPath g).
Proof.
  intros Hp. apply nonempty_false in Hp. unfold open_disk.
  go_unfold. rewrite Hp. go_cases; trace_simpl; auto.
Qed.

Lemma MainGo_main_query_no_insert E g w :
  MainGo.pdfFile g = "" ->
  insertions (calls (snd (MainGo.main E g w))) = insertions (calls w)
  /\ disk (snd (MainGo.main E g w)) = open_disk (disk w) (MainGo.indexPath g).
Proof.
  intros Hp. apply nonempty_false in Hp. unfold open_disk.
  go_unfold. rewrite Hp. go_cases; trace_simpl; auto.
Qed.

(** A failed ingestion, seen from [main]: the run panics, nothing was
    inserted, and the documents a query can reach are those of before (an
    index that did not exist was created by [openIndex], empty). *)
Lemma Part000_main_ingest_failure E g w :
  Part000.pdfFile g <> "" ->
  extraction_fails_pdfcpu E (Part000.pdfFile g)
  \/ bibtex_fails E (Part000.bibtexFile g) ->
  (exists e, fst (Part000.main E g w) = Panicked e)
  /\ insertions (calls (snd (Part000.main E g w))) = insertions (calls w)
  /\ docs_at (disk (snd (Part000.main E g w))) (Part000.indexPath g)
     = docs_at (disk w) (Part000.indexPath g).
Proof.
  intros Hp Hfail.
  destruct (Part000_openIndex_spec g w) as (_ & Hd & Hc & _).
  destruct (Part000.openIndex g w) as [[index | e] w1] eqn:Ho;
    cbn [fst snd] in *.
  - destruct (Part000_main_ingest E g w index w1 Hp Ho) as [Hx Hw].
    pose proof (Part000_parseDocument_fails E g w1 Hfail) as Hpd.
    destruct (Part000_addEntry_parse_error E g index w1 Hpd)
      as (Ha & Hda & Hca & _).
    rewrite Hx, Hw. unfold Bleve.Close, Bleve.record. cbn [snd disk calls].
    destruct (fst (Part000.addEntry E g index w1)); [discriminate |].
    rewrite Hda, Hca, Hd, Hc, docs_at_open_disk, !insertions_app.
    unfold open_calls. destruct (disk w !! _) as [[] |]; cbn;
      rewrite ?app_nil_r; eauto.
  - unfold Part000.main, bind, ret. rewrite Ho. cbn [fst snd].
    rewrite Hd, Hc, docs_at_open_disk, insertions_app.
    unfold open_calls. destruct (disk w !! _) as [[] |]; cbn;
      rewrite ?app_nil_r; eauto.
Qed.

Lemma MainGo_main_ingest_failure E g w :
  MainGo.pdfFile g <> "" ->
  extraction_fails_pdf E (MainGo.pdfFile g)
  \/ bibtex_fails E (MainGo.bibtexFile g) ->
  (exists e, fst (MainGo.main E g w) = Panicked e)
  /\ insertions (calls (snd (MainGo.main E g w))) = insertions (calls w)
  /\ docs_at (disk (snd (MainGo.main E g w))) (MainGo.indexPath g)
     = docs_at (disk w) (MainGo.indexPath g).
Proof.
  intros Hp Hfail.
  destruct (MainGo_openIndex_spec g w) as (_ & Hd & Hc & _).
  destruct (MainGo.openIndex g w) as [[index | e] w1] eqn:Ho;
    cbn [fst snd] in *.
  - destruct (MainGo_main_ingest E g w index w1 Hp Ho) as [Hx Hw].
    pose proof (MainGo_parseDocument_fails E g w1 Hfail) as Hpd.
    destruct (MainGo_addEntry_parse_error E g index w1 Hpd)
      as (Ha & Hda & Hca & _).
    rewrite Hx, Hw. unfold stderr_Flush, Bleve.Close, Bleve.record.
    cbn [snd disk calls].
    destruct (fst (MainGo.addEntry E g index w1)); [discriminate |].
    rewrite Hda, Hca, Hd, Hc, docs_at_open_disk, !insertions_app.
    unfold open_calls. destruct (disk w !! _) as [[] |]; cbn;
      rewrite ?app_nil_r; eauto.
  - unfold MainGo.main, defer, stderr_Flush, bind, ret. rewrite Ho.
    cbn [fst snd disk calls].
    rewrite Hd, Hc, docs_at_open_disk, insertions_app.
    unfold open_calls. destruct (disk w !! _) as [[] |]; cbn;
      rewrite ?app_nil_r; eauto.
Qed.

(** ** Dispatch *)

(** C7. With [-pdf] the run is an ingestion, whatever positional arguments
    come with it: no search request is made, nothing is printed, and once
    the index is open [main] is [addEntry] followed by the deferred calls.
    Without [-pdf] and with query terms the run is a query: nothing is
    inserted, and once the index is open exactly one search request is
    made. Both revisions dispatch alike. *)
Theorem C7_pdf_takes_precedence E w :
  (forall g : Part000.Globals,
      Part000.pdfFile g <> "" ->
      requests (calls (snd (Part000.main E g w))) = requests (calls w)
      /\ os_Stdout (snd (Part000.main E g w)) = os_Stdout w
      /\ forall index w1,
           Part000.openIndex g w = (Ok index, w1) ->
           let a := Part000.addEntry E g index w1 in
           fst (Part000.main E g w)
           = match fst a with Ok _ => Returned | Err e => Panicked e end
           /\ snd (Part000.main E g w) = snd (Bleve.Close index (snd a)))
  /\ (forall g : Part000.Globals,
      Part000.pdfFile g = "" -> Part000.flag_Args_ g <> [] ->
      insertions (calls (snd (Part000.main E g w))) = insertions (calls w)
      /\ (is_Ok (fst (Part000.openIndex g w)) = true ->
          exists req,
            requests (calls (snd (Part000.main E g w)))
            = requests (calls w) ++ [req]))
  /\ (forall g : MainGo.Globals,
      MainGo.pdfFile g <> "" ->
      requests (calls (snd (MainGo.main E g w))) = requests (calls w)
      /\ os_Stdout (snd (MainGo.main E g w)) = os_Stdout w
      /\ forall index w1,
           MainGo.openIndex g w = (Ok index, w1) ->
           let a := MainGo.addEntry E g index w1 in
           fst (MainGo.main E g w)
           = match fst a with Ok _ => Returned | Err e => Panicked e end
           /\ snd (MainGo.main E g w)
              = snd (stderr_Flush (snd (Bleve.Close index (snd a)))))
  /\ (forall g : MainGo.Globals,
      MainGo.pdfFile g = "" -> MainGo.flag_Args_ g <> [] ->
      insertions (calls (snd (MainGo.main E g w))) = insertions (calls w)
      /\ (is_Ok (fst (MainGo.openIndex g w)) = true ->
          exists req,
            requests (calls (snd (MainGo.main E g w)))
            = requests (calls w) ++ [req])).
Proof.
  repeat apply conj.
  - intros g Hp.
    destruct (Part000_main_ingest_quiet E g w Hp) as [Hr Ho].
    repeat split; trivial; now apply Part000_main_ingest.
  - intros g Hp Ha. split.
    + apply (Part000_main_query_no_insert E g w Hp).
    + intros Ho. destruct (Part000_main_search E g w Hp Ha Ho) as (Hc & _).
      eexists. rewrite Hc, !requests_app, requests_open_calls. reflexivity.
  - intros g Hp.
    destruct (MainGo_main_ingest_quiet E g w Hp) as [Hr Ho].
    repeat split; trivial; now apply MainGo_main_ingest.
  - intros g Hp Ha. split.
    + apply (MainGo_main_query_no_insert E g w Hp).
    + intros Ho. destruct (MainGo_main_search E g w Hp Ha Ho) as (Hc & _).
      eexists. rewrite Hc, !requests_app, requests_open_calls. reflexivity.
Qed.

Lemma C7_pdf_takes_precedence_witness :
  let g := SampleGlobals.part000 false false "a.pdf" "" ["consensus"] in
  let g' := SampleGlobals.maingo "" "" ["consensus"] in
  (Part000.pdfFile g <> "" /\ Part000.flag_Args_ g <> []
   /\ requests (calls (snd (Part000.main Sample.env g Sample.fresh)))
      = requests (calls Sample.fresh)
   /\ os_Stdout (snd (Part000.main Sample.env g Sample.fresh))
      = os_Stdout Sample.fresh)
  /\ (MainGo.pdfFile g' = "" /\ MainGo.flag_Args_ g' <> []
      /\ insertions (calls (snd (MainGo.main Sample.env g' Sample.fresh)))
         = insertions (calls Sample.fresh)
      /\ exists req,
           requests (calls (snd (MainGo.main Sample.env g' Sample.fresh)))
           = requests (calls Sample.fresh) ++ [req]).
Proof.
  pose proof (C7_pdf_takes_precedence Sample.env Sample.fresh)
    as (H1 & _ & _ & H4).
  split.
  - split; [discriminate |]. split; [discriminate |].
    destruct (H1 (SampleGlobals.part000 false false "a.pdf" "" ["consensus"])
                ltac:(discriminate)) as (Hr & Ho & _).
    split; assumption.
  - split; [reflexivity |]. split; [discriminate |].
    destruct (H4 (SampleGlobals.maingo "" "" ["consensus"])
                eq_refl ltac:(discriminate)) as (Hi & Hq).
    split; [assumption | apply Hq; reflexivity].
Defined.

(** ** Ingesting a path twice *)

(** In a list without two entries for one key, the entries under a key that
    occurs are that one entry. *)
Lemma filter_key_unique {V} (l : list (string * V)) k v :
  NoDup (l.*1) -> (k, v) ∈ l ->
  List.filter (fun kv : string * V => String.eqb (fst kv) k) l = [(k, v)].
Proof.
  induction l as [| [k' v'] l IH]; intros Hnd Hin.
  - inversion Hin.
  - cbn [fmap list_fmap] in Hnd. apply NoDup_cons in Hnd as [Hk' Hnd].
    cbn [List.filter fst]. apply elem_of_cons in Hin as [[= <- <-] | Hin].
    + rewrite String.eqb_refl. f_equal.
      clear IH Hnd. induction l as [| [k'' v''] l IH]; [reflexivity |].
      cbn [List.filter fst]. cbn [fmap list_fmap] in Hk'.
      apply not_elem_of_cons in Hk' as [Hne Hk']. cbn [fst] in Hne.
      destruct (String.eqb_spec k'' k); [congruence | auto].
    + destruct (String.eqb_spec k' k) as [-> | Hne]; [| auto].
      exfalso. apply Hk'. apply list_elem_of_fmap. now exists (k, v).
Qed.

Lemma stored_under_insert id doc (docs : gmap string Document) :
  stored_under id (<[id := doc]> docs) = [(id, doc)].
Proof.
  apply filter_key_unique.
  - apply NoDup_fst_map_to_list.
  - apply elem_of_map_to_list, lookup_insert_eq.
Qed.

Lemma docs_at_Healthy (d : gmap string Store) p docs :
  docs_at (<[p := Healthy docs]> d) p = docs.
Proof. unfold docs_at. now rewrite lookup_insert_eq. Qed.

(** An [addEntry] that returns without error has stored, under the
    absolute path of the PDF, the document [parseDocument] built. *)
Lemma Part000_addEntry_Ok E g index w w' :
  Part000.addEntry E g index w = (Ok tt, w') ->
  exists id doc docs,
    filepath_Abs E (Part000.pdfFile g) = Ok id
    /\ fst (Part000.parseDocument E g w) = Ok doc
    /\ disk w !! idx_path index = Some (Healthy docs)
    /\ disk w' = <[idx_path index := Healthy (<[id := doc]> docs)]> (disk w)
    /\ calls w' = calls w ++ [CallIndex (idx_path index) id doc].
Proof.
  destruct (Part000_parseDocument_frame E g w) as (Hd & Hc & _).
  unfold Part000.addEntry, try, bind, pure, ret. cbv zeta.
  destruct (filepath_Abs E (Part000.pdfFile g)) as [id | e]; [| discriminate].
  destruct (Part000.parseDocument E g w) as [[doc | e] w0]; [| discriminate].
  cbn [fst snd] in *. go_unfold.
  destruct (Part000.logger g); simpl; rewrite Hd;
    (destruct (disk w !! idx_path index) as [[docs | e] |] eqn:Hl;
     simpl; intros [= <-]; simpl);
    exists id, doc, docs; rewrite ?Hd, ?Hc; auto.
Qed.

Lemma MainGo_addEntry_Ok E g index w w' :
  MainGo.addEntry E g index w = (Ok tt, w') ->
  exists id doc docs,
    filepath_Abs E (MainGo.pdfFile g) = Ok id
    /\ fst (MainGo.parseDocument E g w) = Ok doc
    /\ disk w !! idx_path index = Some (Healthy docs)
    /\ disk w' = <[idx_path index := Healthy (<[id := doc]> docs)]> (disk w)
    /\ calls w' = calls w ++ [CallIndex (idx_path index) id doc].
Proof.
  destruct (MainGo_parseDocument_frame E g w) as (Hd & Hc & _).
  unfold MainGo.addEntry, try, bind, pure, ret. cbv zeta.
  destruct (filepath_Abs E (MainGo.pdfFile g)) as [id | e]; [| discriminate].
  destruct (MainGo.parseDocument E g w) as [[doc | e] w0]; [| discriminate].
  cbn [fst snd] in *. go_unfold.
  destruct (MainGo.logger g); simpl; rewrite Hd;
    (destruct (disk w !! idx_path index) as [[docs | e] |] eqn:Hl;
     simpl; intros [= <-]; simpl);
    exists id, doc, docs; rewrite ?Hd, ?Hc; auto.
Qed.

Lemma overwritten_twice id doc1 doc2 (d : gmap string Store) p docs :
  d !! p = Some (Healthy docs) ->
  overwritten id doc2 d
    (<[p := Healthy (<[id := doc2]> (<[id := doc1]> docs))]>
       (<[p := Healthy (<[id := doc1]> docs)]> d)) p.
Proof.
  intros Hd. unfold overwritten. rewrite docs_at_Healthy.
  unfold docs_at at 1. rewrite Hd, insert_insert_eq.
  repeat split.
  - apply lookup_insert_eq.
  - apply stored_under_insert.
Qed.

(** C6. The identifier under which [addEntry] stores a document is the
    absolute form [filepath.Abs] gives to the path of the PDF, and
    ingesting one path twice, the second time with whatever content the
    file and the BibTeX flag then give, leaves under that identifier
    exactly one document, the one of the second ingestion: the index is the
    index before the first ingestion with that document put in. *)
Theorem C6_reingest_overwrites E1 E2 index w :
  (forall (g1 g2 : Part000.Globals) w1 w1' w2,
      Part000.pdfFile g2 = Part000.pdfFile g1 ->
      filepath_Abs E2 (Part000.pdfFile g1) = filepath_Abs E1 (Part000.pdfFile g1) ->
      Part000.addEntry E1 g1 index w = (Ok tt, w1) ->
      disk w1' = disk w1 ->
      Part000.addEntry E2 g2 index w1' = (Ok tt, w2) ->
      exists id doc2,
        filepath_Abs E1 (Part000.pdfFile g1) = Ok id
        /\ fst (Part000.parseDocument E2 g2 w1') = Ok doc2
        /\ overwritten id doc2 (disk w) (disk w2) (idx_path index))
  /\ (forall (g1 g2 : MainGo.Globals) w1 w1' w2,
      MainGo.pdfFile g2 = MainGo.pdfFile g1 ->
      filepath_Abs E2 (MainGo.pdfFile g1) = filepath_Abs E1 (MainGo.pdfFile g1) ->
      MainGo.addEntry E1 g1 index w = (Ok tt, w1) ->
      disk w1' = disk w1 ->
      MainGo.addEntry E2 g2 index w1' = (Ok tt, w2) ->
      exists id doc2,
        filepath_Abs E1 (MainGo.pdfFile g1) = Ok id
        /\ fst (MainGo.parseDocument E2 g2 w1') = Ok doc2
        /\ overwritten id doc2 (disk w) (disk w2) (idx_path index)).
Proof.
  split; intros g1 g2 w1 w1' w2 Hp Habs H1 Hd H2.
  - apply Part000_addEntry_Ok in H1 as (id & doc1 & docs & Hid & _ & Hl & Hw1 & _).
    apply Part000_addEntry_Ok in H2 as (id' & doc2 & docs' & Hid' & Hdoc & Hl' & Hw2 & _).
    rewrite Hp, Habs, Hid in Hid'. injection Hid' as <-.
    rewrite Hd, Hw1, lookup_insert_eq in Hl'. injection Hl' as <-.
    exists id, doc2. split; [exact Hid |]. split; [exact Hdoc |].
    rewrite Hw2, Hd, Hw1. now apply overwritten_twice.
  - apply MainGo_addEntry_Ok in H1 as (id & doc1 & docs & Hid & _ & Hl & Hw1 & _).
    apply MainGo_addEntry_Ok in H2 as (id' & doc2 & docs' & Hid' & Hdoc & Hl' & Hw2 & _).
    rewrite Hp, Habs, Hid in Hid'. injection Hid' as <-.
    rewrite Hd, Hw1, lookup_insert_eq in Hl'. injection Hl' as <-.
    exists id, doc2. split; [exact Hid |]. split; [exact Hdoc |].
    rewrite Hw2, Hd, Hw1. now apply overwritten_twice.
Qed.

Lemma C6_reingest_overwrites_witness :
  let index := mkIndex "/w/index.bleve" in
  let g1 := SampleGlobals.part000 false false "a.pdf" "a.bib" [] in
  let g2 := SampleGlobals.part000 false false "a.pdf" "" [] in
  let w := snd (Part000.openIndex g1 Sample.fresh) in
  let w1 := snd (Part000.addEntry Sample.env g1 index w) in
  let w2 := snd (Part000.addEntry Sample.env' g2 index w1) in
  fst (Part000.parseDocument Sample.env g1 w)
  = Ok (mkDocument (Some Sample.a_bib) "distributed consensus")
  /\ overwritten "/cwd/a.pdf" (mkDocument None "paxos") (disk w) (disk w2)
       "/w/index.bleve".
Proof.
  split; [reflexivity |].
  destruct (proj1 (C6_reingest_overwrites Sample.env Sample.env'
                     (mkIndex "/w/index.bleve")
                     (snd (Part000.openIndex
                             (SampleGlobals.part000 false false "a.pdf" "a.bib" [])
                             Sample.fresh)))
              (SampleGlobals.part000 false false "a.pdf" "a.bib" [])
              (SampleGlobals.part000 false false "a.pdf" "" [])
              _ _ _ eq_refl eq_refl eq_refl eq_refl eq_refl)
    as (id & doc2 & Hid & Hdoc & Hov).
  injection Hid as <-. injection Hdoc as <-. exact Hov.
Defined.

(** ** The stored text *)

(** C9. In [src/unnamed/part_000] the text of an ingested PDF is the text
    of its pages 1 to [PageCount], in order: it is the text of the document
    [parseDocument] returns and of the document [addEntry] stores. A page
    whose extraction yields no content adds nothing and does not stop the
    ingestion: when every page can be read, [parseDocument] returns that
    text. *)
Theorem C9_text_is_pages_in_order E (g : Part000.Globals) w :
  (forall doc,
      fst (Part000.parseDocument E g w) = Ok doc ->
      exists ctx,
        pdfcpuapi_ReadContextFile E (Part000.pdfFile g) = Ok ctx
        /\ Txt doc = pagesText ctx)
  /\ (forall index w',
      Part000.addEntry E g index w = (Ok tt, w') ->
      exists id ctx doc,
        filepath_Abs E (Part000.pdfFile g) = Ok id
        /\ pdfcpuapi_ReadContextFile E (Part000.pdfFile g) = Ok ctx
        /\ docs_at (disk w') (idx_path index) !! id = Some doc
        /\ Txt doc = pagesText ctx)
  /\ (forall ctx ref,
      pdfcpuapi_ReadContextFile E (Part000.pdfFile g) = Ok ctx ->
      EnsurePageCount ctx = None ->
      (forall i, (1 <= i <= PageCount ctx)%Z -> page_readable ctx i) ->
      bibtex_ref E (Part000.bibtexFile g) ref ->
      fst (Part000.parseDocument E g w) = Ok (mkDocument ref (pagesText ctx))).
Proof.
  split; [| split].
  - intros doc. apply Part000_parseDocument_text.
  - intros index w' Hadd.
    apply Part000_addEntry_Ok in Hadd as (id & doc & docs & Hid & Hdoc & _ & Hw' & _).
    apply Part000_parseDocument_text in Hdoc as (ctx & Hctx & Htxt).
    exists id, ctx, doc. repeat split; trivial.
    rewrite Hw', docs_at_Healthy. apply lookup_insert_eq.
  - intros ctx ref. apply Part000_parseDocument_readable.
Qed.

Lemma C9_text_is_pages_in_order_witness :
  let g := SampleGlobals.part000 false false "a.pdf" "" [] in
  ExtractPageContent Sample.a_pdf 2 = Ok None
  /\ pagesText Sample.a_pdf = "distributed consensus"
  /\ fst (Part000.parseDocument Sample.env g Sample.fresh)
     = Ok (mkDocument None (pagesText Sample.a_pdf)).
Proof.
  split; [reflexivity |]. split; [reflexivity |].
  apply (proj2 (proj2 (C9_text_is_pages_in_order Sample.env
                         (SampleGlobals.part000 false false "a.pdf" "" [])
                         Sample.fresh)) Sample.a_pdf None).
  - reflexivity.
  - reflexivity.
  - intros i Hi. unfold page_readable.
    assert (i = 1 \/ i = 2 \/ i = 3)%Z as [-> | [-> | ->]]
      by (change (PageCount Sample.a_pdf) with 3%Z in Hi; lia).
    + right. eexists. reflexivity.
    + left. reflexivity.
    + right. eexists. reflexivity.
  - left. split; reflexivity.
Defined.

(** ** The two standard streams *)




(** A [main] that returns had its index. *)
Lemma Part000_main_Returned E g w :
  fst (Part000.main E g w) = Returned ->
  is_Ok (fst (Part000.openIndex g w)) = true.
Proof.
  destruct (Part000_openIndex_spec g w) as (Hr & _). rewrite Hr.
  unfold open_result. go; congruence.
Qed.

Lemma MainGo_main_Returned E g w :
  fst (MainGo.main E g w) = Returned ->
  is_Ok (fst (MainGo.openIndex g w)) = true.
Proof.
  destruct (MainGo_openIndex_spec g w) as (Hr & _). rewrite Hr.
  unfold open_result. go; congruence.
Qed.



Lemma Part000_run_eq E cmd w :
  Part000.run E cmd w
  = match fst (Part000.init E cmd w) with
    | Ok g => Part000.main E g (snd (Part000.init E cmd w))
    | Err e => (Panicked e, snd (Part000.init E cmd w))
    end.
Proof.
  unfold Part000.run, bind, ret.
  now destruct (Part000.init E cmd w) as [[g | e] w0].
Qed.












(** * Further properties *)

(** ** Where the index lives *)

(** How [init] ends, read off the environment. *)
Lemma Part000_init_result E cmd w :
  fst (Part000.init E cmd w)
  = match Part000.chooseWorkDir E with
    | Err e => Err e
    | Ok wd =>
        let g := Part000.mkGlobals wd (filepath_Join E wd "index.bleve")
                   (flag_v cmd) (flag_vv cmd) (flag_pdf cmd) (flag_bibtex cmd)
                   (if flag_v cmd || flag_vv cmd then W_Stderr else W_Discard)
                   (flag_Args cmd) in
        match os_MkdirAll E wd with
        | None => Ok g
        | Some err => if errors_Is_ErrExist err then Ok g else Err err
        end
    end.
Proof. go; reflexivity. Qed.

Lemma MainGo_init_result E cmd w :
  fst (MainGo.init E cmd w)
  = match MainGo.chooseWorkDir E with
    | Err e => Err e
    | Ok wd =>
        let g := MainGo.mkGlobals wd (filepath_Join E wd "index.bleve")
                   (flag_pdf cmd) (flag_bibtex cmd) W_Buffered (flag_Args cmd) in
        match os_MkdirAll E wd with
        | None => Ok g
        | Some err => if errors_Is_ErrExist err then Ok g else Err err
        end
    end.
Proof. go; reflexivity. Qed.

Lemma init_leaves_intro E cmd w wd :
  Part000.chooseWorkDir E = Ok wd -> mkdir_passes E wd -> init_leaves E cmd w wd.
Proof.
  intros Hwd Hmk. unfold init_leaves, mkdir_passes in *.
  assert (MainGo.chooseWorkDir E = Ok wd) as Hwd' by exact Hwd.
  rewrite Part000_init_result, MainGo_init_result, Hwd, Hwd'. cbv zeta.
  destruct (os_MkdirAll E wd) as [err |]; [rewrite Hmk |];
    split; eexists; repeat split; reflexivity.
Qed.

(** X1. A non-empty [REFMAN_WORKDIR] is the working directory, whatever
    the platform and whether or not the user has a home directory; the
    index is [index.bleve] in it. [init] goes on when [os.MkdirAll]
    succeeds and when it reports that the directory exists. *)
Theorem init_REFMAN_WORKDIR_overrides E cmd w :
  os_Getenv E "REFMAN_WORKDIR" <> "" ->
  mkdir_passes E (os_Getenv E "REFMAN_WORKDIR") ->
  init_leaves E cmd w (os_Getenv E "REFMAN_WORKDIR").
Proof.
  intros Henv Hmk. apply init_leaves_intro; [| exact Hmk].
  unfold Part000.chooseWorkDir. apply nonempty_true in Henv.
  now rewrite Henv.
Qed.

Lemma init_REFMAN_WORKDIR_overrides_witness :
  is_Ok (os_UserHomeDir Faulty.homeless_override) = false
  /\ init_leaves Faulty.homeless_override (Sample.cmd false false "" "" [])
       Sample.fresh "/w".
Proof.
  split; [reflexivity |].
  apply (init_REFMAN_WORKDIR_overrides Faulty.homeless_override
           (Sample.cmd false false "" "" []) Sample.fresh).
  - discriminate.
  - exact I.
Defined.

(** X2. Without [REFMAN_WORKDIR] the working directory is [refman] under
    [APPDATA] on Windows, where the home directory is not asked for, and
    [.local/share/refman] under the home directory elsewhere. *)
Theorem init_default_workdir E cmd w :
  os_Getenv E "REFMAN_WORKDIR" = "" ->
  (runtime_GOOS E = "windows" ->
   mkdir_passes E (filepath_Join E (os_Getenv E "APPDATA") "refman") ->
   init_leaves E cmd w (filepath_Join E (os_Getenv E "APPDATA") "refman"))
  /\ (runtime_GOOS E <> "windows" ->
      forall home,
        os_UserHomeDir E = Ok home ->
        mkdir_passes E (filepath_Join E home ".local/share/refman") ->
        init_leaves E cmd w (filepath_Join E home ".local/share/refman")).
Proof.
  intros Henv. apply nonempty_false in Henv. split.
  - intros Hos Hmk. apply init_leaves_intro; [| exact Hmk].
    unfold Part000.chooseWorkDir. rewrite Henv, Hos. reflexivity.
  - intros Hos home Hhome Hmk. apply init_leaves_intro; [| exact Hmk].
    unfold Part000.chooseWorkDir. rewrite Henv, Hhome.
    apply String.eqb_neq in Hos. now rewrite Hos.
Qed.

Lemma init_default_workdir_witness :
  is_Ok (os_UserHomeDir Faulty.windows) = false
  /\ init_leaves Faulty.windows (Sample.cmd false false "" "" []) Sample.fresh
       "C:/AppData/refman".
Proof.
  split; [reflexivity |].
  apply (proj1 (init_default_workdir Faulty.windows
                  (Sample.cmd false false "" "" []) Sample.fresh eq_refl));
    [reflexivity | exact I].
Defined.



(** X4. When the working directory cannot be created, for a reason other
    than its existing already, the run panics with the error of
    [os.MkdirAll]: the store is not touched and nothing is printed. *)
Theorem run_panics_when_mkdir_fails E cmd w wd err :
  Part000.chooseWorkDir E = Ok wd ->
  os_MkdirAll E wd = Some err ->
  errors_Is_ErrExist err = false ->
  observed (Part000.run E cmd w) = (Panicked err, disk w, os_Stdout w, calls w)
  /\ observed (MainGo.run E cmd w) = (Panicked err, disk w, os_Stdout w, calls w)
  /\ os_Stderr (snd (MainGo.run E cmd w))
     = os_Stderr w ++ ["Using working directory: " +:+ wd].
Proof.
  intros Hwd Hmk Herr. unfold observed.
  assert (MainGo.chooseWorkDir E = Ok wd) as Hwd' by exact Hwd.
  go_unfold. rewrite Hwd, Hwd'. simpl. rewrite Hmk, Herr.
  destruct (flag_v cmd || flag_vv cmd); simpl; auto.
Qed.

Lemma run_panics_when_mkdir_fails_witness :
  observed (Part000.run Faulty.read_only (Sample.cmd false false "a.pdf" "" [])
              Sample.fresh)
  = (Panicked (ErrOther "permission denied"), ∅, [], []).
Proof.
  apply (run_panics_when_mkdir_fails Faulty.read_only
           (Sample.cmd false false "a.pdf" "" []) Sample.fresh "/w"
           (ErrOther "permission denied") eq_refl eq_refl eq_refl).
Defined.

(** ** The trace of [main] *)

Ltac mid_trace :=
  rewrite <- ?app_assoc; simpl;
  first [ exists []; split; [reflexivity | auto]
        | eexists (cons _ nil); split; [reflexivity | eauto] ].

(** Between the open and the deferred close, [main] makes at most one call
    into the store: an insertion or a search. *)
Lemma Part000_main_trace E g w :
  let p := Part000.indexPath g in
  exists mid,
    calls (snd (Part000.main E g w))
    = calls w ++ open_calls (disk w) p
        ++ match open_result (disk w) p with
           | Ok _ => mid ++ [CallClose p]
           | Err _ => []
           end
    /\ (mid = [] \/ (exists id doc, mid = [CallIndex p id doc])
        \/ exists req, mid = [CallSearch p req]).
Proof.
  unfold open_calls, open_result. go; mid_trace.
Qed.

Lemma MainGo_main_trace E g w :
  let p := MainGo.indexPath g in
  exists mid,
    calls (snd (MainGo.main E g w))
    = calls w ++ open_calls (disk w) p
        ++ match open_result (disk w) p with
           | Ok _ => mid ++ [CallClose p]
           | Err _ => []
           end
    /\ (mid = [] \/ (exists id doc, mid = [CallIndex p id doc])
        \/ exists req, mid = [CallSearch p req]).
Proof.
  unfold open_calls, open_result. go; mid_trace.
Qed.

(** The disk after [main]: what [openIndex] left, with at most the index
    rewritten. *)
Lemma Part000_main_disk_frame E g w p :
  p <> Part000.indexPath g ->
  disk (snd (Part000.main E g w)) !! p = disk w !! p.
Proof.
  intros Hp. go; rewrite ?lookup_insert_ne by congruence; reflexivity.
Qed.

Lemma MainGo_main_disk_frame E g w p :
  p <> MainGo.indexPath g ->
  disk (snd (MainGo.main E g w)) !! p = disk w !! p.
Proof.
  intros Hp. go; rewrite ?lookup_insert_ne by congruence; reflexivity.
Qed.

Lemma main_trace_paths p d mid :
  (mid = [] \/ (exists id doc, mid = [CallIndex p id doc])
   \/ exists req, mid = [CallSearch p req]) ->
  Forall (fun c => call_path c = p)
    (open_calls d p ++ match open_result d p with
                       | Ok _ => mid ++ [CallClose p]
                       | Err _ => []
                       end).
Proof.
  intros Hmid. unfold open_calls, open_result.
  destruct Hmid as [-> | [(id & doc & ->) | (req & ->)]];
    destruct (d !! p) as [[] |]; simpl; repeat constructor.
Qed.

(** X5. Whatever the command line and the environment, [main] calls the
    store at the index path only, and leaves every other path of the disk
    as it was. *)
Theorem main_touches_only_index_path E w :
  (forall g : Part000.Globals,
      (exists cs,
          calls (snd (Part000.main E g w)) = calls w ++ cs
          /\ Forall (fun c => call_path c = Part000.indexPath g) cs)
      /\ forall p, p <> Part000.indexPath g ->
           disk (snd (Part000.main E g w)) !! p = disk w !! p)
  /\ (forall g : MainGo.Globals,
      (exists cs,
          calls (snd (MainGo.main E g w)) = calls w ++ cs
          /\ Forall (fun c => call_path c = MainGo.indexPath g) cs)
      /\ forall p, p <> MainGo.indexPath g ->
           disk (snd (MainGo.main E g w)) !! p = disk w !! p).
Proof.
  split; intros g; (split; [| intros p; first
    [ apply Part000_main_disk_frame | apply MainGo_main_disk_frame ]]).
  - destruct (Part000_main_trace E g w) as (mid & Hc & Hmid).
    eexists. split; [exact Hc |]. now apply main_trace_paths.
  - destruct (MainGo_main_trace E g w) as (mid & Hc & Hmid).
    eexists. split; [exact Hc |]. now apply main_trace_paths.
Qed.





(** ** Queries *)

Lemma Search_result E index req w :
  fst (Bleve.Search E index req w)
  = match disk w !! idx_path index with
    | Some (Healthy docs) =>
        match bleve_matches E (Query req) with
        | Ok matches => Ok (mkSearchResult req (Bleve.hits E req matches docs))
        | Err e => Err e
        end
    | _ => Err ErrorIndexClosed
    end.
Proof. go; reflexivity. Qed.

(** An index that [openIndex] returns holds the documents a query could
    reach before. *)
Lemma open_disk_healthy d p :
  is_Ok (open_result d p) = true ->
  open_disk d p !! p = Some (Healthy (docs_at d p)).
Proof.
  unfold open_result, open_disk, docs_at.
  destruct (d !! p) as [[docs | e] |] eqn:Hd; try discriminate; intros _.
  - exact Hd.
  - apply lookup_insert_eq.
Qed.

Lemma Part000_search_after_open E g w req :
  is_Ok (fst (Part000.openIndex g w)) = true ->
  fst (Bleve.Search E (mkIndex (Part000.indexPath g)) req
         (snd (Part000.openIndex g w)))
  = match bleve_matches E (Query req) with
    | Ok matches =>
        Ok (mkSearchResult req
              (Bleve.hits E req matches
                 (docs_at (disk w) (Part000.indexPath g))))
    | Err e => Err e
    end.
Proof.
  intros Ho. destruct (Part000_openIndex_spec g w) as (Hr & Hd & _).
  rewrite Hr in Ho. rewrite Search_result, Hd. cbn [idx_path].
  now rewrite (open_disk_healthy _ _ Ho).
Qed.

Lemma MainGo_search_after_open E g w req :
  is_Ok (fst (MainGo.openIndex g w)) = true ->
  fst (Bleve.Search E (mkIndex (MainGo.indexPath g)) req
         (snd (MainGo.openIndex g w)))
  = match bleve_matches E (Query req) with
    | Ok matches =>
        Ok (mkSearchResult req
              (Bleve.hits E req matches
                 (docs_at (disk w) (MainGo.indexPath g))))
    | Err e => Err e
    end.
Proof.
  intros Ho. destruct (MainGo_openIndex_spec g w) as (Hr & Hd & _).
  rewrite Hr in Ho. rewrite Search_result, Hd. cbn [idx_path].
  now rewrite (open_disk_healthy _ _ Ho).
Qed.

(** X7. A query that bleve's query-string syntax rejects makes [main]
    panic with bleve's error; nothing is printed. *)
Theorem main_panics_on_rejected_query E w e :
  (forall g : Part000.Globals,
      Part000.pdfFile g = "" -> Part000.flag_Args_ g <> [] ->
      is_Ok (fst (Part000.openIndex g w)) = true ->
      bleve_matches E
        (strings_ReplaceAll (strings_Join (Part000.flag_Args_ g) " ") "~" "-")
      = Err e ->
      fst (Part000.main E g w) = Panicked e
      /\ os_Stdout (snd (Part000.main E g w)) = os_Stdout w)
  /\ (forall g : MainGo.Globals,
      MainGo.pdfFile g = "" -> MainGo.flag_Args_ g <> [] ->
      is_Ok (fst (MainGo.openIndex g w)) = true ->
      bleve_matches E (strings_Join (MainGo.flag_Args_ g) " ") = Err e ->
      fst (MainGo.main E g w) = Panicked e
      /\ os_Stdout (snd (MainGo.main E g w)) = os_Stdout w).
Proof.
  split; intros g Hp Ha Ho Hm.
  - destruct (Part000_main_search E g w Hp Ha Ho) as (_ & _ & Hx & Hout).
    cbv zeta in Hx, Hout.
    rewrite Part000_search_after_open in Hx, Hout by exact Ho.
    cbn [Query] in Hx, Hout. rewrite Hm in Hx, Hout.
    split; [exact Hx |]. rewrite Hout. apply app_nil_r.
  - destruct (MainGo_main_search E g w Hp Ha Ho) as (_ & _ & Hx & Hout).
    cbv zeta in Hx, Hout.
    rewrite MainGo_search_after_open in Hx, Hout by exact Ho.
    cbn [Query] in Hx, Hout. rewrite Hm in Hx, Hout.
    split; [exact Hx |]. rewrite Hout. apply app_nil_r.
Qed.


Lemma main_panics_on_rejected_query_witness :
  fst (Part000.main Sample.env (SampleGlobals.part000 false false "" "" [""])
         Sample.fresh)
  = Panicked (ErrOther "empty query")
  /\ os_Stdout (snd (Part000.main Sample.env
                       (SampleGlobals.part000 false false "" "" [""])
                       Sample.fresh))
     = os_Stdout Sample.fresh.
Proof.
  apply (proj1 (main_panics_on_rejected_query Sample.env Sample.fresh
                  (ErrOther "empty query"))
           (SampleGlobals.part000 false false "" "" [""]));
    [reflexivity | discriminate | reflexivity | reflexivity].
Defined.


(** ** From one run to the next *)











(** Once [openIndex] has returned an index, [main] leaves a readable
    index behind. *)
Lemma Part000_main_leaves_index E g w :
  is_Ok (open_result (disk w) (Part000.indexPath g)) = true ->
  is_Ok (open_result (disk (snd (Part000.main E g w))) (Part000.indexPath g))
  = true
  /\ exists docs,
       disk (snd (Part000.main E g w)) !! Part000.indexPath g
       = Some (Healthy docs).
Proof.
  unfold open_result.
  destruct (disk w !! Part000.indexPath g) as [[docs | e] |] eqn:Hd;
    try discriminate; intros _;
    go; rewrite ?lookup_insert_eq, ?Hd; eauto; simplify_map_eq.
Qed.

Lemma MainGo_main_leaves_index E g w :
  is_Ok (open_result (disk w) (MainGo.indexPath g)) = true ->
  is_Ok (open_result (disk (snd (MainGo.main E g w))) (MainGo.indexPath g))
  = true
  /\ exists docs,
       disk (snd (MainGo.main E g w)) !! MainGo.indexPath g
       = Some (Healthy docs).
Proof.
  unfold open_result.
  destruct (disk w !! MainGo.indexPath g) as [[docs | e] |] eqn:Hd;
    try discriminate; intros _;
    go; rewrite ?lookup_insert_eq, ?Hd; eauto; simplify_map_eq.
Qed.

Lemma creations_existing p (d : gmap string Store) docs mid :
  d !! p = Some (Healthy docs) ->
  (mid = [] \/ (exists id doc, mid = [CallIndex p id doc])
   \/ exists req, mid = [CallSearch p req]) ->
  creations (open_calls d p ++ match open_result d p with
                               | Ok _ => mid ++ [CallClose p]
                               | Err _ => []
                               end) = [].
Proof.
  intros Hd Hmid. unfold open_calls, open_result. rewrite Hd.
  destruct Hmid as [-> | [(id & doc & ->) | (req & ->)]]; reflexivity.
Qed.

(** X10. A run that returned has left an index that every later run
    opens: no later run creates the index again, or fails to have it. *)
Theorem returned_run_leaves_openable_index E1 E2 w :
  (forall (g1 g2 : Part000.Globals) w1,
      fst (Part000.main E1 g1 w) = Returned ->
      disk w1 = disk (snd (Part000.main E1 g1 w)) ->
      Part000.indexPath g2 = Part000.indexPath g1 ->
      is_Ok (fst (Part000.openIndex g2 w1)) = true
      /\ exists cs,
           calls (snd (Part000.main E2 g2 w1)) = calls w1 ++ cs
           /\ creations cs = [])
  /\ (forall (g1 g2 : MainGo.Globals) w1,
      fst (MainGo.main E1 g1 w) = Returned ->
      disk w1 = disk (snd (MainGo.main E1 g1 w)) ->
      MainGo.indexPath g2 = MainGo.indexPath g1 ->
      is_Ok (fst (MainGo.openIndex g2 w1)) = true
      /\ exists cs,
           calls (snd (MainGo.main E2 g2 w1)) = calls w1 ++ cs
           /\ creations cs = []).
Proof.
  split; intros g1 g2 w1 Hret Hd Hpath.
  - pose proof (Part000_main_Returned E1 g1 w Hret) as Ho.
    destruct (Part000_openIndex_spec g1 w) as (Hr & _). rewrite Hr in Ho.
    destruct (Part000_main_leaves_index E1 g1 w Ho) as (Ho' & docs & Hl).
    rewrite <- Hd, <- Hpath in Ho', Hl.
    destruct (Part000_openIndex_spec g2 w1) as (-> & _).
    split; [exact Ho' |].
    destruct (Part000_main_trace E2 g2 w1) as (mid & Hc & Hmid).
    eexists. split; [exact Hc |]. now apply creations_existing with docs.
  - pose proof (MainGo_main_Returned E1 g1 w Hret) as Ho.
    destruct (MainGo_openIndex_spec g1 w) as (Hr & _). rewrite Hr in Ho.
    destruct (MainGo_main_leaves_index E1 g1 w Ho) as (Ho' & docs & Hl).
    rewrite <- Hd, <- Hpath in Ho', Hl.
    destruct (MainGo_openIndex_spec g2 w1) as (-> & _).
    split; [exact Ho' |].
    destruct (MainGo_main_trace E2 g2 w1) as (mid & Hc & Hmid).
    eexists. split; [exact Hc |]. now apply creations_existing with docs.
Qed.

Lemma returned_run_leaves_openable_index_witness :
  let g1 := SampleGlobals.maingo "" "" [] in
  let g2 := SampleGlobals.maingo "a.pdf" "" [] in
  let w1 := snd (MainGo.main Sample.env g1 Sample.fresh) in
  creations (calls w1) = ["/w/index.bleve"]
  /\ is_Ok (fst (MainGo.openIndex g2 w1)) = true
  /\ exists cs,
       calls (snd (MainGo.main Sample.env g2 w1)) = calls w1 ++ cs
       /\ creations cs = [].
Proof.
  split; [reflexivity |].
  apply (proj2 (returned_run_leaves_openable_index Sample.env Sample.env
                  Sample.fresh)
           (SampleGlobals.maingo "" "" []) (SampleGlobals.maingo "a.pdf" "" []));
    reflexivity.
Defined.

(** ** Ingestion *)

(** X11. A successful ingestion changes the index under one identifier
    only, the absolute path of the PDF: every other document is as it was,
    and so is every other path of the disk. *)
Theorem ingestion_leaves_other_documents E index w :
  (forall (g : Part000.Globals) w',
      Part000.addEntry E g index w = (Ok tt, w') ->
      exists id,
        filepath_Abs E (Part000.pdfFile g) = Ok id
        /\ (forall id', id' <> id ->
              docs_at (disk w') (idx_path index) !! id'
              = docs_at (disk w) (idx_path index) !! id')
        /\ forall p, p <> idx_path index -> disk w' !! p = disk w !! p)
  /\ (forall (g : MainGo.Globals) w',
      MainGo.addEntry E g index w = (Ok tt, w') ->
      exists id,
        filepath_Abs E (MainGo.pdfFile g) = Ok id
        /\ (forall id', id' <> id ->
              docs_at (disk w') (idx_path index) !! id'
              = docs_at (disk w) (idx_path index) !! id')
        /\ forall p, p <> idx_path index -> disk w' !! p = disk w !! p).
Proof.
  split; intros g w' Hadd.
  - apply Part000_addEntry_Ok in Hadd as (id & doc & docs & Hid & _ & Hl & -> & _).
    exists id. split; [exact Hid |]. split.
    + intros id' Hne. rewrite docs_at_Healthy. unfold docs_at. rewrite Hl.
      now apply lookup_insert_ne.
    + intros p Hne. now apply lookup_insert_ne.
  - apply MainGo_addEntry_Ok in Hadd as (id & doc & docs & Hid & _ & Hl & -> & _).
    exists id. split; [exact Hid |]. split.
    + intros id' Hne. rewrite docs_at_Healthy. unfold docs_at. rewrite Hl.
      now apply lookup_insert_ne.
    + intros p Hne. now apply lookup_insert_ne.
Qed.

(** X12. When [filepath.Abs] fails, [addEntry] returns its error before it
    reads the PDF, leaving the world as it found it, and [main] panics with
    that error. *)
Theorem ingestion_stops_when_Abs_fails E w e :
  (forall g : Part000.Globals,
      filepath_Abs E (Part000.pdfFile g) = Err e ->
      (forall index, Part000.addEntry E g index w = (Err e, w))
      /\ (Part000.pdfFile g <> "" ->
          is_Ok (fst (Part000.openIndex g w)) = true ->
          fst (Part000.main E g w) = Panicked e))
  /\ (forall g : MainGo.Globals,
      filepath_Abs E (MainGo.pdfFile g) = Err e ->
      (forall index, MainGo.addEntry E g index w = (Err e, w))
      /\ (MainGo.pdfFile g <> "" ->
          is_Ok (fst (MainGo.openIndex g w)) = true ->
          fst (MainGo.main E g w) = Panicked e)).
Proof.
  split; intros g Habs.
  - assert (forall index w0, Part000.addEntry E g index w0 = (Err e, w0)) as Hadd
      by (intros index w0; unfold Part000.addEntry, try, bind, pure, ret;
          now rewrite Habs).
    split; [intros index; apply Hadd |]. intros Hp Ho.
    destruct (Part000.openIndex g w) as [[index | e'] w1] eqn:Hopen;
      [| discriminate].
    destruct (Part000_main_ingest E g w index w1 Hp Hopen) as [-> _].
    now rewrite Hadd.
  - assert (forall index w0, MainGo.addEntry E g index w0 = (Err e, w0)) as Hadd
      by (intros index w0; unfold MainGo.addEntry, try, bind, pure, ret;
          now rewrite Habs).
    split; [intros index; apply Hadd |]. intros Hp Ho.
    destruct (MainGo.openIndex g w) as [[index | e'] w1] eqn:Hopen;
      [| discriminate].
    destruct (MainGo_main_ingest E g w index w1 Hp Hopen) as [-> _].
    now rewrite Hadd.
Qed.

Lemma ingestion_stops_when_Abs_fails_witness :
  fst (Part000.main Faulty.no_cwd
         (SampleGlobals.part000 false false "a.pdf" "" []) Sample.fresh)
  = Panicked (ErrOther "getwd: no such file or directory").
Proof.
  apply (proj1 (ingestion_stops_when_Abs_fails Faulty.no_cwd Sample.fresh
                  (ErrOther "getwd: no such file or directory"))
           (SampleGlobals.part000 false false "a.pdf" "" []) eq_refl);
    [discriminate | reflexivity].
Defined.

Lemma ingestion_leaves_other_documents_witness :
  let index := mkIndex "/w/index.bleve" in
  let g := SampleGlobals.part000 false false "a.pdf" "" [] in
  let w := snd (Part000.openIndex g Sample.fresh) in
  exists id,
    filepath_Abs Sample.env "a.pdf" = Ok id
    /\ (forall id', id' <> id ->
          docs_at (disk (snd (Part000.addEntry Sample.env g index w)))
            "/w/index.bleve" !! id'
          = docs_at (disk w) "/w/index.bleve" !! id')
    /\ forall p, p <> "/w/index.bleve" ->
         disk (snd (Part000.addEntry Sample.env g index w)) !! p = disk w !! p.
Proof.
  exact (proj1 (ingestion_leaves_other_documents Sample.env
                  (mkIndex "/w/index.bleve")
                  (snd (Part000.openIndex
                          (SampleGlobals.part000 false false "a.pdf" "" [])
                          Sample.fresh)))
           (SampleGlobals.part000 false false "a.pdf" "" []) _ eq_refl).
Defined.

(** ** Reading the PDF and the BibTeX file *)

(** The loop stops at the first page that fails, with the error of that
    page. *)
Lemma pageLoop_first_failure ctx (n : nat) : forall i txt k e,
  (i <= k < i + Z.of_nat n)%Z ->
  (forall j, (i <= j < k)%Z -> page_readable ctx j) ->
  page_fails ctx k e ->
  Part000.pageLoop ctx i n txt = Err e.
Proof.
  induction n as [| n IH]; intros i txt k e Hk Hbefore Hfail; [lia |].
  cbn [Part000.pageLoop].
  destruct (Z.eq_dec i k) as [-> | Hne].
  - destruct Hfail as [-> | ->]; reflexivity.
  - destruct (Hbefore i ltac:(lia)) as [-> | [bytes ->]]; cbn;
      apply IH with k; try lia; auto; intros j Hj; apply Hbefore; lia.
Qed.

(** X13. In [src/unnamed/part_000] the ingestion of a PDF stops at the
    first page that cannot be read: when the pages before page [k] can be
    read and page [k] fails, in its extraction or in the copy of its
    content, [parseDocument] returns the error of page [k], whatever the
    later pages and the BibTeX file are. *)
Theorem parseDocument_first_failing_page E (g : Part000.Globals) w ctx k e :
  pdfcpuapi_ReadContextFile E (Part000.pdfFile g) = Ok ctx ->
  EnsurePageCount ctx = None ->
  (1 <= k <= PageCount ctx)%Z ->
  (forall j, (1 <= j < k)%Z -> page_readable ctx j) ->
  page_fails ctx k e ->
  fst (Part000.parseDocument E g w) = Err e.
Proof.
  intros Hctx Hens Hk Hbefore Hfail. go_unfold. rewrite Hctx, Hens.
  rewrite (pageLoop_first_failure ctx _ 1 "" k e) by (auto; lia).
  go_cases; reflexivity.
Qed.

Lemma parseDocument_first_failing_page_witness :
  fst (Part000.parseDocument Faulty.pdfs
         (SampleGlobals.part000 false false "torn.pdf" "a.bib" []) Sample.fresh)
  = Err (ErrOther "corrupt page").
Proof.
  apply (parseDocument_first_failing_page Faulty.pdfs
           (SampleGlobals.part000 false false "torn.pdf" "a.bib" [])
           Sample.fresh Faulty.torn_pdf 2 (ErrOther "corrupt page")).
  - reflexivity.
  - reflexivity.
  - change (PageCount Faulty.torn_pdf) with 3%Z. lia.
  - intros j Hj. assert (j = 1%Z) as -> by lia.
    right. eexists. reflexivity.
  - left. reflexivity.
Defined.

(** X14. In [src/unnamed/part_000] a PDF without pages is not an error:
    when the page count is zero (or less) the loop does not run and
    [parseDocument] returns a document with an empty text. *)
Theorem parseDocument_no_pages E (g : Part000.Globals) w ctx ref :
  pdfcpuapi_ReadContextFile E (Part000.pdfFile g) = Ok ctx ->
  EnsurePageCount ctx = None ->
  (PageCount ctx <= 0)%Z ->
  bibtex_ref E (Part000.bibtexFile g) ref ->
  fst (Part000.parseDocument E g w) = Ok (mkDocument ref "").
Proof.
  intros Hctx Hens Hn Hbib.
  rewrite (Part000_parseDocument_readable E g w ctx ref Hctx Hens); trivial.
  - unfold pagesText. now rewrite seqZ_nil.
  - intros i Hi. lia.
Qed.

Lemma parseDocument_no_pages_witness :
  fst (Part000.parseDocument Faulty.pdfs
         (SampleGlobals.part000 false false "blank.pdf" "" []) Sample.fresh)
  = Ok (mkDocument None "").
Proof.
  apply (parseDocument_no_pages Faulty.pdfs
           (SampleGlobals.part000 false false "blank.pdf" "" [])
           Sample.fresh Faulty.blank_pdf None);
    [reflexivity | reflexivity | discriminate | left; split; reflexivity].
Defined.

(** X15. The reference of a parsed document follows the [-bibtex] flag:
    without the flag the reference is nil and no BibTeX file is read; with
    it the reference is what [bibtex.Parse] made of the file. *)
Theorem parseDocument_reference E w :
  (forall (g : Part000.Globals) doc,
      fst (Part000.parseDocument E g w) = Ok doc ->
      bibtex_ref E (Part000.bibtexFile g) (Ref doc))
  /\ (forall (g : MainGo.Globals) doc,
      fst (MainGo.parseDocument E g w) = Ok doc ->
      bibtex_ref E (MainGo.bibtexFile g) (Ref doc)).
Proof.
  unfold bibtex_ref. split; intros g doc; go_unfold.
  - destruct (nonempty (Part000.bibtexFile g)) eqn:Hb;
      [apply nonempty_true in Hb | apply nonempty_false in Hb];
      go_cases; intros [= <-] || discriminate; simpl; eauto 10.
  - destruct (nonempty (MainGo.bibtexFile g)) eqn:Hb;
      [apply nonempty_true in Hb | apply nonempty_false in Hb];
      go_cases; intros [= <-] || discriminate; simpl; eauto 10.
Qed.

Lemma parseDocument_reference_witness :
  bibtex_ref Sample.env "a.bib" (Some Sample.a_bib)
  /\ bibtex_ref Sample.env "" None.
Proof.
  split.
  - exact (proj1 (parseDocument_reference Sample.env Sample.fresh)
             (SampleGlobals.part000 false false "a.pdf" "a.bib" [])
             (mkDocument (Some Sample.a_bib) "distributed consensus") eq_refl).
  - exact (proj2 (parseDocument_reference Sample.env Sample.fresh)
             (SampleGlobals.maingo "a.pdf" "" [])
             (mkDocument None "distributed consensus") eq_refl).
Defined.

(** X16. In [src/main.go] the text of a parsed document is the plain text
    of the PDF, whole: what [io.Copy] reads from the reader of
    [GetPlainText]; and a PDF whose plain text can be read to its end
    gives a document. *)
Theorem MainGo_text_is_plain_text E (g : MainGo.Globals) w :
  (forall doc,
      fst (MainGo.parseDocument E g w) = Ok doc ->
      exists reader,
        pdf_Open E (MainGo.pdfFile g) = Ok reader
        /\ GetPlainText reader = Ok (Ok (Txt doc)))
  /\ (forall reader bytes ref,
      pdf_Open E (MainGo.pdfFile g) = Ok reader ->
      GetPlainText reader = Ok (Ok bytes) ->
      bibtex_ref E (MainGo.bibtexFile g) ref ->
      fst (MainGo.parseDocument E g w) = Ok (mkDocument ref bytes)).
Proof.
  split.
  - intros doc. go_unfold.
    destruct (pdf_Open E (MainGo.pdfFile g)) as [reader | e];
      [| go_cases; discriminate].
    destruct (GetPlainText reader) as [[bytes | e] | e] eqn:Hpt;
      try (go_cases; discriminate).
    intros H. exists reader. split; [reflexivity |]. rewrite Hpt.
    revert H. go_cases; intros [= <-] || discriminate; reflexivity.
  - intros reader bytes ref Hrd Hpt Hbib. go_unfold. rewrite Hrd, Hpt.
    destruct Hbib as [[Hb ->] | [Hb (f & r & Hf & Hr & ->)]].
    + apply nonempty_false in Hb. rewrite Hb. go_cases; reflexivity.
    + apply nonempty_true in Hb. rewrite Hb, Hf, Hr. go_cases; reflexivity.
Qed.

Lemma MainGo_text_is_plain_text_witness :
  fst (MainGo.parseDocument Sample.env (SampleGlobals.maingo "a.pdf" "a.bib" [])
         Sample.fresh)
  = Ok (mkDocument (Some Sample.a_bib) "distributed consensus").
Proof.
  apply (proj2 (MainGo_text_is_plain_text Sample.env
                  (SampleGlobals.maingo "a.pdf" "a.bib" []) Sample.fresh)
           (mkPdfReader (Ok (Ok "distributed consensus")))
           "distributed consensus" (Some Sample.a_bib));
    [reflexivity | reflexivity |].
  right. split; [discriminate |].
  exists "@article{lamport98}", Sample.a_bib. repeat split; reflexivity.
Defined.

(** ** What a query run sends and prints *)

Lemma map_bytes_no_tilde s : has_byte "~" (map_bytes tilde_to_dash s) = false.
Proof.
  induction s as [| c s IH]; [reflexivity |].
  cbn [map_bytes has_byte]. rewrite IH, orb_false_r.
  unfold tilde_to_dash. destruct (Ascii.eqb_spec c "~") as [-> | Hne].
  - reflexivity.
  - now apply Ascii.eqb_neq.
Qed.

Lemma map_bytes_length f s : String.length (map_bytes f s) = String.length s.
Proof.
  induction s as [| c s IH]; [reflexivity |]. cbn. now rewrite IH.
Qed.

Lemma map_bytes_tilde_free s :
  has_byte "~" s = false -> map_bytes tilde_to_dash s = s.
Proof.
  induction s as [| c s IH]; [reflexivity |].
  cbn [map_bytes has_byte]. intros H. apply orb_false_elim in H as [Hc Hs].
  rewrite (IH Hs). unfold tilde_to_dash. now rewrite Hc.
Qed.

(** X17. In [src/unnamed/part_000] no [~] reaches the store: the query of
    a query run has no byte [~] and is as long as the space-joined
    arguments; and when the arguments have no [~] the run sends the very
    string that [src/main.go] sends. *)
Theorem query_has_no_tilde E (g : Part000.Globals) (g' : MainGo.Globals) w :
  Part000.pdfFile g = "" -> Part000.flag_Args_ g <> [] ->
  is_Ok (fst (Part000.openIndex g w)) = true ->
  exists q,
    queries (calls (snd (Part000.main E g w))) = queries (calls w) ++ [q]
    /\ has_byte "~" q = false
    /\ String.length q
       = String.length (strings_Join (Part000.flag_Args_ g) " ")
    /\ (MainGo.pdfFile g' = "" ->
        MainGo.flag_Args_ g' = Part000.flag_Args_ g ->
        is_Ok (fst (MainGo.openIndex g' w)) = true ->
        has_byte "~" (strings_Join (Part000.flag_Args_ g) " ") = false ->
        queries (calls (snd (MainGo.main E g' w))) = queries (calls w) ++ [q]).
Proof.
  intros Hp Ha Ho.
  destruct (Part000_main_search E g w Hp Ha Ho) as (Hc & _).
  exists (map_bytes tilde_to_dash (strings_Join (Part000.flag_Args_ g) " ")).
  split; [| split; [| split]].
  - rewrite Hc, !queries_app, queries_open_calls, <- replace_tilde.
    reflexivity.
  - apply map_bytes_no_tilde.
  - apply map_bytes_length.
  - intros Hp' Ha' Ho' Hfree. rewrite <- Ha' in Ha.
    destruct (MainGo_main_search E g' w Hp' Ha Ho') as (Hc' & _).
    rewrite Hc', !queries_app, queries_open_calls, Ha'.
    now rewrite (map_bytes_tilde_free _ Hfree).
Qed.

Lemma query_has_no_tilde_witness :
  let g := SampleGlobals.part000 false false "" "" ["raft"; "paxos~2"] in
  exists q,
    queries (calls (snd (Part000.main Sample.env g Sample.fresh))) = [] ++ [q]
    /\ has_byte "~" q = false
    /\ String.length q = String.length "raft paxos~2".
Proof.
  destruct (query_has_no_tilde Sample.env
              (SampleGlobals.part000 false false "" "" ["raft"; "paxos~2"])
              (SampleGlobals.maingo "" "" ["raft"; "paxos~2"]) Sample.fresh
              eq_refl ltac:(discriminate) eq_refl)
    as (q & Hq & Hfree & Hlen & _).
  exists q. split; [exact Hq | split; [exact Hfree | exact Hlen]].
Defined.



(** ** What [openIndex] logs *)



(** ** The flag [-v] *)

(** The logger, the flag [-v] and what is on standard error change
    nothing of what [main] does apart from standard error. *)
Lemma Part000_main_observed E (g g' : Part000.Globals) w w' :
  Part000.indexPath g = Part000.indexPath g' ->
  Part000.verbose2 g = Part000.verbose2 g' ->
  Part000.pdfFile g = Part000.pdfFile g' ->
  Part000.bibtexFile g = Part000.bibtexFile g' ->
  Part000.flag_Args_ g = Part000.flag_Args_ g' ->
  disk w = disk w' -> os_Stdout w = os_Stdout w' -> calls w = calls w' ->
  observed (Part000.main E g w) = observed (Part000.main E g' w').
Proof.
  destruct g, g', w, w'. simpl. intros <- <- <- <- <- <- <- <-.
  unfold observed. go; reflexivity.
Qed.

(** X20. In [src/unnamed/part_000] the flag [-v] is about the log only: a
    run with [-v] and the run without it end the same way, leave the same
    disk, print the same on standard output and make the same calls into
    the store. *)
Theorem v_flag_changes_only_the_log E cmd w :
  observed (Part000.run E (with_v true cmd) w)
  = observed (Part000.run E (with_v false cmd) w).
Proof.
  rewrite !Part000_run_eq.
  destruct (Part000_init_spec E (with_v true cmd) w)
    as (Hd & Hc & Ho & _ & _ & _).
  destruct (Part000_init_spec E (with_v false cmd) w)
    as (Hd' & Hc' & Ho' & _ & _ & _).
  rewrite !Part000_init_result. simpl.
  destruct (Part000.chooseWorkDir E) as [wd | e].
  - assert (forall e, observed (Panicked e, snd (Part000.init E (with_v true cmd) w))
                      = observed (Panicked e, snd (Part000.init E (with_v false cmd) w)))
      as Hpanic by (intros e; unfold observed; simpl; congruence).
    destruct (os_MkdirAll E wd) as [err |];
      [destruct (errors_Is_ErrExist err) |];
      auto; apply Part000_main_observed; simpl; congruence.
  - unfold observed. simpl. congruence.
Qed.
